(** * Cartridge-selection bot: catalog index and dialogue engine

    A shallow embedding of [main.py]: the in-memory indexes built by
    [load_data_from_sheets], the helpers [normalize_name],
    [split_kits_and_items] and [get_system_name_from_rows], and the two
    dialogue handlers [handle_callback] and [handle_text].

    Python dictionaries that are only read by key are [gmap]s; the name
    index, which the handlers iterate in insertion order, is an association
    list.  Row objects are shared between [all_rows] and the index buckets,
    so the buckets hold positions into [all_rows]. *)

From Stdlib Require Import ZArith String Ascii DecimalString.
From stdpp Require Import gmap strings list fin_maps.

Local Open Scope string_scope.
Local Open Scope list_scope.

(** ** Python string operations *)

(** [str.isspace], [str.upper] and [str.lower] follow the Unicode tables of
    the Python runtime.  The embedding takes them as an interface; every
    theorem holds for any implementation, and [ascii_text] below is the one
    used to evaluate examples. *)
Class PyText := {
  py_isspace : ascii -> bool;
  py_upper : string -> string;
  py_lower : string -> string
}.

Definition ascii_isspace (c : ascii) : bool :=
  let n := nat_of_ascii c in
  ((9 <=? n) && (n <=? 13) || (28 <=? n) && (n <=? 32))%nat.

Definition ascii_upper_char (c : ascii) : ascii :=
  let n := nat_of_ascii c in
  if ((97 <=? n) && (n <=? 122))%nat then ascii_of_nat (n - 32) else c.

Definition ascii_lower_char (c : ascii) : ascii :=
  let n := nat_of_ascii c in
  if ((65 <=? n) && (n <=? 90))%nat then ascii_of_nat (n + 32) else c.

Fixpoint string_map (f : ascii -> ascii) (s : string) : string :=
  match s with
  | EmptyString => EmptyString
  | String c s' => String (f c) (string_map f s')
  end.

#[export] Instance ascii_text : PyText := {|
  py_isspace := ascii_isspace;
  py_upper := string_map ascii_upper_char;
  py_lower := string_map ascii_lower_char
|}.

(** [needle in hay] on strings. *)
Fixpoint py_in (needle hay : string) : bool :=
  String.prefix needle hay ||
  match hay with
  | EmptyString => false
  | String _ hay' => py_in needle hay'
  end.

(** [s.split(sep, maxsplit)] for a one-character separator; [cur] is the
    piece being read. *)
Fixpoint split_on (sep : ascii) (maxsplit : nat) (cur s : string) : list string :=
  match s with
  | EmptyString => [cur]
  | String c s' =>
      match maxsplit with
      | O => [cur +:+ s]
      | S m =>
          if Ascii.eqb c sep then cur :: split_on sep m "" s'
          else split_on sep maxsplit (cur +:+ String c "") s'
      end
  end.

(** [s.split(sep)]: no limit on the number of pieces. *)
Definition py_split (sep : ascii) (s : string) : list string :=
  split_on sep (String.length s) "" s.

(** [s.split(sep, n)]. *)
Definition py_splitn (sep : ascii) (n : nat) (s : string) : list string :=
  split_on sep n "" s.

(** The characters of [s] before the first [sep]. *)
Fixpoint take_until (sep : ascii) (s : string) : string :=
  match s with
  | EmptyString => EmptyString
  | String c s' => if Ascii.eqb c sep then EmptyString else String c (take_until sep s')
  end.

(** [x.split(".")[0]]; the list is never empty. *)
Definition before_dot (s : string) : string :=
  default "" (head (py_split "." s)).

Section Text.
Context `{PyText}.

Fixpoint py_lstrip (s : string) : string :=
  match s with
  | EmptyString => EmptyString
  | String c s' => if py_isspace c then py_lstrip s' else s
  end.

Fixpoint py_rstrip (s : string) : string :=
  match s with
  | EmptyString => EmptyString
  | String c s' =>
      match py_rstrip s' with
      | EmptyString => if py_isspace c then EmptyString else String c EmptyString
      | r => String c r
      end
  end.

(** [s.strip()]. *)
Definition py_strip (s : string) : string := py_rstrip (py_lstrip s).

(** [s.split()]: pieces between runs of whitespace, none of them empty. *)
Fixpoint split_ws (cur s : string) : list string :=
  match s with
  | EmptyString => if decide (cur = "") then [] else [cur]
  | String c s' =>
      if py_isspace c
      then (if decide (cur = "") then [] else [cur]) ++ split_ws "" s'
      else split_ws (cur +:+ String c "") s'
  end.

Definition py_split_ws (s : string) : list string := split_ws "" s.
End Text.

(** ** Cells and rows *)

(** A cell of a sheet record: text, or a number that the sheet library has
    already converted.  A float is kept by its [str()] text. *)
Inductive cell :=
  | CStr (s : string)
  | CInt (z : Z)
  | CFloat (repr : string).

#[export] Instance cell_eq_dec : EqDecision cell.
Proof. solve_decision. Defined.

(** [str(x)]. *)
Definition py_str (x : cell) : string :=
  match x with
  | CStr s => s
  | CInt z => NilZero.string_of_int (Z.to_int z)
  | CFloat r => r
  end.

(** Truth value of a cell, as in [x or ""]. *)
Definition py_truthy (x : cell) : bool :=
  match x with
  | CStr s => negb (String.eqb s "")
  | CInt z => negb (z =? 0)%Z
  | CFloat r => negb (String.eqb r "0.0" || String.eqb r "-0.0")
  end.

(** One record of the sheet.  The fields are the dictionary keys the program
    reads: "Артикул", "Название системы", "Артикул расходника",
    "Название расходника", "ссылка".  [None] is a missing key. *)
Record row := Row {
  r_sys_art : option cell;
  r_sys_name : option cell;
  r_cart_art : option cell;
  r_cart_name : option cell;
  r_url : option cell
}.

#[export] Instance row_eq_dec : EqDecision row.
Proof. solve_decision. Defined.

(** [row["Артикул"] = v] and [row["Артикул расходника"] = v]. *)
Definition set_sys_art (v : cell) (r : row) : row :=
  {| r_sys_art := Some v; r_sys_name := r_sys_name r; r_cart_art := r_cart_art r;
     r_cart_name := r_cart_name r; r_url := r_url r |}.

Definition set_cart_art (v : cell) (r : row) : row :=
  {| r_sys_art := r_sys_art r; r_sys_name := r_sys_name r; r_cart_art := Some v;
     r_cart_name := r_cart_name r; r_url := r_url r |}.

(** [r.get(key, "")]. *)
Definition get_or_empty (field : option cell) : cell := default (CStr "") field.

Section Catalog.
Context `{PyText}.

(** [normalize_name] on a [str]: [(name or "")] is [name] itself. *)
Definition normalize_name (name : string) : string := py_upper (py_strip name).

(** [normalize_name] on a cell of any type, as [load_data_from_sheets]
    calls it: [(name or "").strip().upper()].  A number that is not zero
    has no [strip]; the call raises, which is [None] here. *)
Definition normalize_name_cell (name : cell) : option string :=
  if py_truthy name then
    match name with
    | CStr s => Some (normalize_name s)
    | _ => None
    end
  else Some (normalize_name "").

(** ** The indexes *)

(** The module globals.  A row is referred to by its position in
    [all_rows]. *)
Record catalog := Catalog {
  all_rows : list row;
  systems_by_article : gmap string (list nat);
  systems_by_name : list (string * list string);
  cartridges_by_article : gmap string (list nat)
}.

(** [d[k].append(i)] on a [defaultdict(list)]. *)
Definition bucket_append (k : string) (i : nat) (d : gmap string (list nat))
  : gmap string (list nat) :=
  <[k := default [] (d !! k) ++ [i]]> d.

(** [d.get(k, [])]. *)
Definition bucket_get (k : string) (d : gmap string (list nat)) : list nat :=
  default [] (d !! k).

(** [if a not in d[k]: d[k].append(a)] on the insertion-ordered name index;
    a new key goes last. *)
Fixpoint name_register (k a : string) (d : list (string * list string))
  : list (string * list string) :=
  match d with
  | [] => [(k, [a])]
  | (k', arts) :: d' =>
      if decide (k = k')
      then (k', if decide (a ∈ arts) then arts else arts ++ [a]) :: d'
      else (k', arts) :: name_register k a d'
  end.

(** [d.get(k, [])] on the name index. *)
Fixpoint name_get (k : string) (d : list (string * list string)) : list string :=
  match d with
  | [] => []
  | (k', arts) :: d' => if decide (k = k') then arts else name_get k d'
  end.

(** One iteration of the loop of [load_data_from_sheets], on the row at
    position [i]. *)
Definition index_row (i : nat) (c : catalog) : option catalog :=
  match all_rows c !! i with
  | None => Some c
  | Some r =>
      match r_sys_art r, r_sys_name r with
      | Some sys_art_raw, Some sys_name =>
          let sys_art := before_dot (py_str sys_art_raw) in
          let r1 := set_sys_art (CStr sys_art) r in
          sys_name_norm ← normalize_name_cell sys_name;
          let by_article := bucket_append sys_art i (systems_by_article c) in
          let by_name :=
            if decide (sys_name_norm = "") then systems_by_name c
            else name_register sys_name_norm sys_art (systems_by_name c) in
          match r_cart_art r with
          | Some cart_art_raw =>
              if decide (cart_art_raw = CStr "") then
                Some (Catalog (<[i := r1]> (all_rows c)) by_article by_name
                        (cartridges_by_article c))
              else
                let cart_art := before_dot (py_str cart_art_raw) in
                Some (Catalog (<[i := set_cart_art (CStr cart_art) r1]> (all_rows c))
                        by_article by_name
                        (bucket_append cart_art i (cartridges_by_article c)))
          | None =>
              Some (Catalog (<[i := r1]> (all_rows c)) by_article by_name
                      (cartridges_by_article c))
          end
      | _, _ => Some c
      end
  end.

Fixpoint index_rows (positions : list nat) (c : catalog) : option catalog :=
  match positions with
  | [] => Some c
  | i :: rest => c' ← index_row i c; index_rows rest c'
  end.

(** [load_data_from_sheets], from the records the sheet returned. *)
Definition load_data_from_sheets (records : list row) : option catalog :=
  index_rows (seq 0 (length records)) (Catalog records ∅ [] ∅).

(** The rows behind a list of references. *)
Definition rows_at (c : catalog) (refs : list nat) : list row :=
  omap (λ i, all_rows c !! i) refs.
End Catalog.


(** ** Classification and rendering helpers *)

(** The words that mark a bundle of several cartridges. *)
Definition KIT_WORDS : list string := ["комплект"; "набор"; "kit"; "set"].

Section Rendering.
Context `{PyText}.

(** The test of [split_kits_and_items] on one row. *)
Definition is_kit (r : row) : bool :=
  let cart_name := py_lower (py_str (get_or_empty (r_cart_name r))) in
  existsb (λ word, py_in word cart_name) KIT_WORDS.

(** [split_kits_and_items]: one pass, each row appended to one of two
    lists. *)
Definition split_kits_and_items (rows : list row) : list row * list row :=
  foldl (λ '(kits, singles) r,
           if is_kit r then (kits ++ [r], singles) else (kits, singles ++ [r]))
        ([], []) rows.

(** [get_system_name_from_rows]. *)
Definition get_system_name_from_rows (rows : list row) : string :=
  match rows with
  | [] => ""
  | r :: _ => py_strip (py_str (get_or_empty (r_sys_name r)))
  end.

(** [if a not in acc: acc.append(a)]. *)
Definition add_new (acc : list string) (a : string) : list string :=
  if decide (a ∈ acc) then acc else acc ++ [a].

(** The list [candidate_articles] of the step "await_sys_name": the bucket
    of the exact name, and when that is empty the articles of every name
    that contains the query, each once, in the order met.  The bucket is
    extended only when it is empty, and a loaded index has no empty
    bucket, so the index itself is never modified. *)
Definition candidate_articles (sys_name_norm : string)
    (by_name : list (string * list string)) : list string :=
  match name_get sys_name_norm by_name with
  | [] =>
      foldl (λ acc '(name_norm, arts),
               if py_in sys_name_norm name_norm then foldl add_new acc arts else acc)
            [] by_name
  | found => found
  end.

(** The list [sys_articles] of the cartridge steps: the system articles
    of the rows of a cartridge, each once, in the order met. *)
Definition sys_articles (rows : list row) : list string :=
  foldl (λ acc r,
           let a := before_dot (py_str (get_or_empty (r_sys_art r))) in
           if decide (a = "") then acc else add_new acc a)
        [] rows.

(** The set [matched_cart_art] of the step "await_cart_name": one scan of
    [all_rows]. *)
Definition matched_cart_art (cart_name_norm : string) (rows : list row) : gset string :=
  foldl (λ acc r,
           let name := normalize_name (py_str (get_or_empty (r_cart_name r))) in
           let cart_art := before_dot (py_str (get_or_empty (r_cart_art r))) in
           if decide (cart_art = "") then acc
           else if py_in cart_name_norm name then acc ∪ {[cart_art]} else acc)
        ∅ rows.
End Rendering.

(** ** Sessions and outbound messages *)

Inductive lang := LANG_RU | LANG_EN | LANG_KK | LANG_UZ.

#[export] Instance lang_eq_dec : EqDecision lang.
Proof. solve_decision. Defined.

Definition DEFAULT_LANG : lang := LANG_RU.

(** The language codes accepted by [handle_callback]. *)
Definition lang_of_code (code : string) : option lang :=
  if decide (code = "ru") then Some LANG_RU
  else if decide (code = "en") then Some LANG_EN
  else if decide (code = "kk") then Some LANG_KK
  else if decide (code = "uz") then Some LANG_UZ
  else None.

(** The values stored under ["step"]; a session without a step reads as
    the empty string, which is [None] here. *)
Inductive step :=
  | choose_language
  | main_menu
  | regular_menu
  | await_pro_article
  | await_sys_name
  | await_cart_article
  | await_cart_name
  | await_choose_system_for_name
  | await_choose_system_for_cart.

#[export] Instance step_eq_dec : EqDecision step.
Proof. solve_decision. Defined.

(** One entry of [user_states]. *)
Record session := Session {
  s_lang : option lang;
  s_step : option step
}.

#[export] Instance session_eq_dec : EqDecision session.
Proof. solve_decision. Defined.

(** A label or a line of text is kept as the template it is built from:
    [Tx l key] is [TEXTS[l][key]], [Fmt l key args] is
    [TEXTS[l][key].format(...)] with the arguments in the order of the
    call. *)
Inductive line :=
  | Tx (l : lang) (key : string)
  | Fmt (l : lang) (key : string) (args : list string)
  | Blank.

Inductive label :=
  | LText (l : lang) (key : string)
  | LLang (l : lang)
  | LSystem (sys_name a : string).

Record button := InlineKeyboardButton {
  b_label : label;
  callback_data : string
}.

Record message := Message {
  m_text : list line;
  reply_markup : option (list (list button))
}.

(** The calls to the messaging library. *)
Inductive call :=
  | Answer
  | Reply (m : message)
  | Edit (m : message)
  | Send (m : message).

Definition lang_keyboard : list (list button) :=
  [ [InlineKeyboardButton (LLang LANG_RU) "lang_ru";
     InlineKeyboardButton (LLang LANG_EN) "lang_en"];
    [InlineKeyboardButton (LLang LANG_KK) "lang_kk";
     InlineKeyboardButton (LLang LANG_UZ) "lang_uz"] ].

Definition main_menu_keyboard (l : lang) : list (list button) :=
  [ [InlineKeyboardButton (LText l "btn_regular") "menu_regular"];
    [InlineKeyboardButton (LText l "btn_pro") "menu_pro"];
    [InlineKeyboardButton (LText l "btn_lang") "menu_lang"] ].

Definition regular_menu_keyboard (l : lang) : list (list button) :=
  [ [InlineKeyboardButton (LText l "btn_reg_sys_name") "reg_sys_name"];
    [InlineKeyboardButton (LText l "btn_reg_cart_art") "reg_cart_art"];
    [InlineKeyboardButton (LText l "btn_reg_cart_name") "reg_cart_name"];
    [InlineKeyboardButton (LText l "back_to_menu") "back_main"] ].

(** A plain text [t[key]], with or without a keyboard. *)
Definition text_of (l : lang) (key : string) (kb : option (list (list button))) : message :=
  Message [Tx l key] kb.

(** ** The handler monad *)

(** What a handler can touch: the session table, the messages delivered so
    far (oldest first), and the outcome of the deliveries still to come
    ([false]: the call raises; none left: the call succeeds). *)
Record world := World {
  user_states : gmap Z session;
  outbox : list call;
  network : list bool
}.

Inductive result (A : Type) :=
  | Ok (a : A)
  | Raised.
Arguments Ok {A} a.
Arguments Raised {A}.

Definition M (A : Type) : Type := world -> result A * world.

#[export] Instance M_ret : MRet M := λ A a w, (Ok a, w).

#[export] Instance M_bind : MBind M := λ A B f m w,
  match m w with
  | (Ok a, w') => f a w'
  | (Raised, w') => (Raised, w')
  end.

(** An exception raised by the handler's own code. *)
Definition raise {A} : M A := λ w, (Raised, w).

Definition lift_opt {A} (o : option A) : M A :=
  match o with
  | Some a => mret a
  | None => raise
  end.

(** [try: body except Exception: handler]. *)
Definition try_except (body handler : M unit) : M unit := λ w,
  match body w with
  | (Raised, w') => handler w'
  | done => done
  end.

(** One awaited call to the messaging library. *)
Definition deliver (o : call) : M unit := λ w,
  match network w with
  | false :: rest => (Raised, World (user_states w) (outbox w) rest)
  | true :: rest => (Ok (), World (user_states w) (outbox w ++ [o]) rest)
  | [] => (Ok (), World (user_states w) (outbox w ++ [o]) [])
  end.

Definition empty_session : session := Session None None.

Definition get_user_lang (user_id : Z) : M lang := λ w,
  (Ok (default DEFAULT_LANG (s_lang (default empty_session (user_states w !! user_id)))), w).

Definition get_user_step (user_id : Z) : M (option step) := λ w,
  (Ok (s_step (default empty_session (user_states w !! user_id))), w).

Definition set_user_lang (user_id : Z) (l : lang) : M unit := λ w,
  let state := default empty_session (user_states w !! user_id) in
  (Ok (), World (<[user_id := Session (Some l) (s_step state)]> (user_states w))
               (outbox w) (network w)).

Definition set_user_step (user_id : Z) (st : step) : M unit := λ w,
  let state := default empty_session (user_states w !! user_id) in
  (Ok (), World (<[user_id := Session (s_lang state) (Some st)]> (user_states w))
               (outbox w) (network w)).

(** ** The handlers *)

Section Handlers.
Context `{PyText}.

(** The rows found under a key of one of the two article indexes. *)
Definition rows_of (c : catalog) (key : string) (d : gmap string (list nat)) : list row :=
  rows_at c (bucket_get key d).

Definition item_line (l : lang) (r : row) : line :=
  Fmt l "item_line"
    [py_strip (py_str (get_or_empty (r_cart_name r)));
     before_dot (py_str (get_or_empty (r_cart_art r)));
     py_strip (py_str (get_or_empty (r_url r)))].

(** The list [lines] of [send_system_info]. *)
Definition system_info_lines (l : lang) (sys_article : string) (rows : list row)
  : list line :=
  let sys_name := get_system_name_from_rows rows in
  let '(kits, singles) := split_kits_and_items rows in
  [Fmt l "system_header" [sys_name; sys_article]; Blank] ++
  match kits with
  | _ :: _ =>
      [Tx l "kits_header"] ++ map (item_line l) kits ++ [Blank] ++
      match singles with
      | _ :: _ => [Tx l "items_header"] ++ map (item_line l) singles
      | [] => []
      end
  | [] => [Tx l "no_kits"] ++ map (item_line l) singles
  end.

Definition send_system_info (l : lang) (sys_article : string) (rows : list row) : M unit :=
  deliver (Send (Message (system_info_lines l sys_article rows) None)).

Definition back_row (l : lang) : list button :=
  [InlineKeyboardButton (LText l "back_to_menu") "back_main"].

(** The label [f"{sys_name} (арт. {a})"] of a system offered for choice. *)
Definition system_label (c : catalog) (a : string) : label :=
  LSystem (get_system_name_from_rows (rows_of c a (systems_by_article c))) a.

(** The [try] block of [handle_callback]. *)
Definition handle_callback_try (c : catalog) (user_id : Z) (lang0 : lang)
    (query_data : option string) : M unit :=
  data ← lift_opt query_data;
  if String.prefix "lang_" data then
    lang_code ← lift_opt (py_splitn "_" 1 data !! 1%nat);
    l ← match lang_of_code lang_code with
        | Some l' => set_user_lang user_id l';; mret l'
        | None => mret lang0
        end;
    set_user_step user_id main_menu;;
    deliver (Edit (text_of l "main_menu" (Some (main_menu_keyboard l))))
  else if decide (data = "menu_regular") then
    set_user_step user_id regular_menu;;
    deliver (Edit (text_of lang0 "ask_regular_what_known"
                     (Some (regular_menu_keyboard lang0))))
  else if decide (data = "menu_pro") then
    set_user_step user_id await_pro_article;;
    deliver (Edit (text_of lang0 "ask_pro_art" None))
  else if decide (data = "menu_lang") then
    set_user_step user_id choose_language;;
    deliver (Edit (text_of lang0 "welcome" (Some lang_keyboard)))
  else if decide (data = "back_main") then
    set_user_step user_id main_menu;;
    deliver (Edit (text_of lang0 "main_menu" (Some (main_menu_keyboard lang0))))
  else if decide (data = "reg_sys_name") then
    set_user_step user_id await_sys_name;;
    deliver (Edit (text_of lang0 "ask_sys_name" None))
  else if decide (data = "reg_cart_art") then
    set_user_step user_id await_cart_article;;
    deliver (Edit (text_of lang0 "ask_cart_art" None))
  else if decide (data = "reg_cart_name") then
    set_user_step user_id await_cart_name;;
    deliver (Edit (text_of lang0 "ask_cart_name" None))
  else if String.prefix "sys_" data then
    match py_splitn "_" 1 data with
    | [_; sys_article] =>
        let rows := rows_of c sys_article (systems_by_article c) in
        send_system_info lang0 sys_article rows;;
        set_user_step user_id main_menu;;
        deliver (Send (text_of lang0 "main_menu" (Some (main_menu_keyboard lang0))))
    | _ => raise
    end
  else if String.prefix "sysfromcart_" data then
    match py_splitn "_" 2 data with
    | [_; sys_article; cart_art] =>
        let rows := rows_of c sys_article (systems_by_article c) in
        send_system_info lang0 sys_article rows;;
        set_user_step user_id main_menu;;
        deliver (Send (text_of lang0 "main_menu" (Some (main_menu_keyboard lang0))))
    | _ => raise
    end
  else mret ().

(** [handle_callback].  The query is answered before the [try] block.
    The local [t] is rebound only together with [set_user_lang], so in
    the [except] clause it is the table of the session's language. *)
Definition handle_callback (c : catalog) (user_id : Z) (query_data : option string)
  : M unit :=
  deliver Answer;;
  lang0 ← get_user_lang user_id;
  try_except (handle_callback_try c user_id lang0 query_data)
    (l ← get_user_lang user_id; deliver (Reply (text_of l "error" None))).

(** The [try] block of [handle_text]. *)
Definition handle_text_try (c : catalog) (user_id : Z) (l : lang) (text : string)
    (st : option step) : M unit :=
  match st with
  | None =>
      set_user_step user_id choose_language;;
      deliver (Reply (text_of l "welcome" (Some lang_keyboard)))
  | Some await_pro_article =>
      sys_article ← lift_opt (head (py_split_ws text));
      let rows := rows_of c sys_article (systems_by_article c) in
      match rows with
      | [] => deliver (Reply (text_of l "no_systems_found" None))
      | _ => send_system_info l sys_article rows
      end;;
      set_user_step user_id main_menu;;
      deliver (Reply (text_of l "main_menu" (Some (main_menu_keyboard l))))
  | Some await_sys_name =>
      let sys_name_norm := normalize_name text in
      match candidate_articles sys_name_norm (systems_by_name c) with
      | [] =>
          deliver (Reply (text_of l "no_systems_found" None));;
          set_user_step user_id main_menu;;
          deliver (Reply (text_of l "main_menu" (Some (main_menu_keyboard l))))
      | [sys_article] =>
          let rows := rows_of c sys_article (systems_by_article c) in
          send_system_info l sys_article rows;;
          set_user_step user_id main_menu;;
          deliver (Reply (text_of l "main_menu" (Some (main_menu_keyboard l))))
      | candidates =>
          let buttons :=
            map (λ a, [InlineKeyboardButton (system_label c a) ("sys_" +:+ a)])
                candidates ++ [back_row l] in
          set_user_step user_id await_choose_system_for_name;;
          deliver (Reply (text_of l "choose_system" (Some buttons)))
      end
  | Some await_cart_article =>
      cart_art ← lift_opt (head (py_split_ws text));
      let rows := rows_of c cart_art (cartridges_by_article c) in
      match rows with
      | [] =>
          deliver (Reply (text_of l "no_cartridges_found" None));;
          set_user_step user_id main_menu;;
          deliver (Reply (text_of l "main_menu" (Some (main_menu_keyboard l))))
      | _ =>
          match sys_articles rows with
          | [sys_article] =>
              let sys_rows := rows_of c sys_article (systems_by_article c) in
              send_system_info l sys_article sys_rows;;
              set_user_step user_id main_menu;;
              deliver (Reply (text_of l "main_menu" (Some (main_menu_keyboard l))))
          | articles =>
              let buttons :=
                map (λ a, [InlineKeyboardButton (system_label c a)
                             ("sysfromcart_" +:+ a +:+ "_" +:+ cart_art)])
                    articles ++ [back_row l] in
              set_user_step user_id await_choose_system_for_cart;;
              deliver (Reply (text_of l "choose_system_for_cart" (Some buttons)))
          end
      end
  | Some await_cart_name =>
      let cart_name_norm := normalize_name text in
      match elements (matched_cart_art cart_name_norm (all_rows c)) with
      | [] =>
          deliver (Reply (text_of l "no_cartridges_found" None));;
          set_user_step user_id main_menu;;
          deliver (Reply (text_of l "main_menu" (Some (main_menu_keyboard l))))
      | [cart_art] =>
          let rows := rows_of c cart_art (cartridges_by_article c) in
          match sys_articles rows with
          | [sys_article] =>
              let sys_rows := rows_of c sys_article (systems_by_article c) in
              send_system_info l sys_article sys_rows;;
              set_user_step user_id main_menu;;
              deliver (Reply (text_of l "main_menu" (Some (main_menu_keyboard l))))
          | articles =>
              let buttons :=
                map (λ a, [InlineKeyboardButton (system_label c a)
                             ("sysfromcart_" +:+ a +:+ "_" +:+ cart_art)])
                    articles ++ [back_row l] in
              set_user_step user_id await_choose_system_for_cart;;
              deliver (Reply (text_of l "choose_system_for_cart" (Some buttons)))
          end
      | _ =>
          deliver (Reply (text_of l "no_cartridges_found" None));;
          set_user_step user_id main_menu;;
          deliver (Reply (text_of l "main_menu" (Some (main_menu_keyboard l))))
      end
  | Some main_menu | Some regular_menu | Some choose_language =>
      set_user_step user_id main_menu;;
      deliver (Reply (text_of l "main_menu" (Some (main_menu_keyboard l))))
  | Some await_choose_system_for_name | Some await_choose_system_for_cart =>
      deliver (Reply (text_of l "error" None))
  end.

(** [handle_text]; [message_text] is [update.message.text]. *)
Definition handle_text (c : catalog) (user_id : Z) (message_text : option string)
  : M unit :=
  l ← get_user_lang user_id;
  let text := py_strip (default "" message_text) in
  st ← get_user_step user_id;
  try_except (handle_text_try c user_id l text st)
    (deliver (Reply (text_of l "error" None))).

(** The two kinds of update the handlers are registered for: a pressed
    button, with [query.data], and a text message, with
    [update.message.text]. *)
Inductive event :=
  | Selection (query_data : option string)
  | FreeText (message_text : option string).

Definition handle_event (c : catalog) (user_id : Z) (ev : event) : M unit :=
  match ev with
  | Selection query_data => handle_callback c user_id query_data
  | FreeText message_text => handle_text c user_id message_text
  end.
End Handlers.

(** ** What the specification says, for comparison with the code *)

(** The key under which the loop files a row in [systems_by_article]: rows
    without a system article or without a system name are skipped. *)
Definition sys_key (r : row) : option string :=
  match r_sys_art r, r_sys_name r with
  | Some a, Some _ => Some (before_dot (py_str a))
  | _, _ => None
  end.

(** The key under which the loop files a row in [cartridges_by_article]. *)
Definition cart_key (r : row) : option string :=
  match r_sys_art r, r_sys_name r, r_cart_art r with
  | Some _, Some _, Some ca =>
      if decide (ca = CStr "") then None else Some (before_dot (py_str ca))
  | _, _, _ => None
  end.

(** The row as the loop leaves it in [all_rows]. *)
Definition stored (r : row) : row :=
  match r_sys_art r, r_sys_name r with
  | Some a, Some _ =>
      let r1 := set_sys_art (CStr (before_dot (py_str a))) r in
      match r_cart_art r with
      | Some ca =>
          if decide (ca = CStr "") then r1
          else set_cart_art (CStr (before_dot (py_str ca))) r1
      | None => r1
      end
  | _, _ => r
  end.

(** "Rows whose system article normalizes to [a]", read on the article
    alone. *)
Definition article_normalizes_to (a : string) (r : row) : bool :=
  match r_sys_art r with
  | Some v => bool_decide (before_dot (py_str v) = a)
  | None => false
  end.

(** No key of the name index is empty and no bucket is empty. *)
Definition names_ok (d : list (string * list string)) : Prop :=
  Forall (λ kv, fst kv ≠ "" ∧ snd kv ≠ []) d.

(** A list without repetitions, each element at its first position. *)
Fixpoint dedup_first (l : list string) : list string :=
  match l with
  | [] => []
  | x :: l' => x :: filter (λ y, y ≠ x) (dedup_first l')
  end.

(** "The union (dedup, first-seen order) of all article sets whose key
    contains the normalized input as a substring." *)
Definition substring_union (q : string) (by_name : list (string * list string))
  : list string :=
  dedup_first (concat (map snd (filter (λ kv, py_in q (fst kv)) by_name))).

(** Text made of whitespace only (the empty text included). *)
Fixpoint whitespace_only `{PyText} (s : string) : bool :=
  match s with
  | EmptyString => true
  | String c s' => py_isspace c && whitespace_only s'
  end.

(** The selection tokens for which [handle_callback] has a branch. *)
Definition recognized (data : string) : bool :=
  String.prefix "lang_" data
  || bool_decide (data ∈ ["menu_regular"; "menu_pro"; "menu_lang"; "back_main";
                          "reg_sys_name"; "reg_cart_art"; "reg_cart_name"])
  || String.prefix "sys_" data
  || String.prefix "sysfromcart_" data.

(** The steps from which [handle_text] shows the main menu again. *)
Definition resting (st : step) : bool :=
  match st with
  | main_menu | regular_menu | choose_language => true
  | _ => false
  end.

(** The session of a user, and the table with one step replaced. *)
Definition session_of (w : world) (user_id : Z) : session :=
  default empty_session (user_states w !! user_id).

Definition with_step (user_id : Z) (st : step) (states : gmap Z session)
  : gmap Z session :=
  <[user_id := Session (s_lang (default empty_session (states !! user_id))) (Some st)]>
    states.

Definition user_lang (w : world) (user_id : Z) : lang :=
  default DEFAULT_LANG (s_lang (session_of w user_id)).

(** The world once [query.answer()] has gone through. *)
Definition answered (w : world) : world :=
  World (user_states w) (outbox w ++ [Answer]) (tail (network w)).

(** The world in which the [try] block of the handler of an event starts. *)
Definition try_start (ev : event) (w : world) : world :=
  match ev with
  | Selection _ => answered w
  | FreeText _ => w
  end.

(** The run of the [try] block of the handler of an event. *)
Definition try_block `{PyText} (c : catalog) (user_id : Z) (ev : event) (w : world)
  : result unit * world :=
  match ev with
  | Selection query_data =>
      handle_callback_try c user_id (user_lang w user_id) query_data (answered w)
  | FreeText message_text =>
      handle_text_try c user_id (user_lang w user_id)
        (py_strip (default "" message_text)) (s_step (session_of w user_id)) w
  end.

(** The handler of an event reaches its [try] block: for a pressed button,
    answering the query succeeds. *)
Definition reaches_try (ev : event) (w : world) : Prop :=
  match ev with
  | Selection _ => hd true (network w) = true
  | FreeText _ => True
  end.

Definition error_message (l : lang) : message := text_of l "error" None.
Definition main_menu_message (l : lang) : message :=
  text_of l "main_menu" (Some (main_menu_keyboard l)).

(** ** Example data *)

Module Examples.
(** Scenario 1 of the specification. *)
Definition prestige : row :=
  Row (Some (CStr "20001.0")) (Some (CStr "Geyser-Prestige")) (Some (CStr "27008"))
      (Some (CStr "CBC 10")) (Some (CStr "https://example.org/cbc10")).

(** A second system with the same name, and a kit. *)
Definition prestige2 : row :=
  Row (Some (CInt 20002)) (Some (CStr " geyser-prestige")) (Some (CFloat "27010.0"))
      (Some (CStr "Kit No 3")) (Some (CStr "")).

(** The cartridge of [prestige] under another system. *)
Definition bastion : row :=
  Row (Some (CStr "20003")) (Some (CStr "Geyser-Bastion")) (Some (CInt 27008))
      (Some (CStr "CBC 10")) None.

(** A record with a system article and no system name. *)
Definition nameless : row :=
  Row (Some (CStr "20001")) None (Some (CStr "27008")) (Some (CStr "CBC 10")) None.

Definition nameless2 : row :=
  Row (Some (CStr "30005")) None (Some (CStr "27555")) (Some (CStr "Aragon 3")) None.


Definition sheet : list row := [prestige; prestige2; bastion].

Definition user : Z := 42.

(** A session at the given step, with every delivery succeeding. *)
Definition at_step (st : step) : world :=
  World {[user := Session (Some LANG_EN) (Some st)]} [] [].

(** The same, with the outcomes of the coming deliveries given. *)
Definition at_step_net (st : step) (net : list bool) : world :=
  World {[user := Session (Some LANG_EN) (Some st)]} [] net.

(** The catalog loaded from a sheet, empty if the load raised. *)
Definition loaded (rs : list row) : catalog :=
  default (Catalog rs ∅ [] ∅) (load_data_from_sheets rs).
End Examples.

Import Examples.


(** ** The rest of the module *)

(** The name under which the loop registers the article of a row; [None]
    for a skipped row and for a name on which [normalize_name] raises. *)
Definition name_key `{PyText} (r : row) : option string :=
  match r_sys_art r, r_sys_name r with
  | Some _, Some nm => normalize_name_cell nm
  | _, _ => None
  end.

(** The system articles that the rows give to the name [n], in the order
    of the rows. *)
Definition articles_named `{PyText} (n : string) (rs : list row) : list string :=
  omap (λ r, if decide (name_key r = Some n) then sys_key r else None) rs.

(** What the loop does to the name index for one row. *)
Definition register_row `{PyText} (r : row) (d : list (string * list string))
  : list (string * list string) :=
  match sys_key r, name_key r with
  | Some a, Some n => if decide (n = "") then d else name_register n a d
  | _, _ => d
  end.

(** A row on which the loop raises: it has a system article, and its
    system name is a number other than zero. *)
Definition has_numeric_name (r : row) : bool :=
  match r_sys_art r, r_sys_name r with
  | Some _, Some (CStr _) => false
  | Some _, Some nm => py_truthy nm
  | _, _ => false
  end.

(** The keys of the name index are distinct and not empty; the buckets
    are not empty and hold no article twice. *)
Definition names_wf (d : list (string * list string)) : Prop :=
  NoDup (map fst d)
  ∧ Forall (λ kv, fst kv ≠ "" ∧ snd kv ≠ [] ∧ NoDup (snd kv)) d.

(** The normalized article that the handlers read from a cell:
    [str(r.get(key, "")).split(".")[0]]. *)
Definition article_of (field : option cell) : string :=
  before_dot (py_str (get_or_empty field)).

(** The lines of [send_system_info] that show a cartridge. *)
Definition is_item_line (ln : line) : bool :=
  match ln with
  | Fmt _ key _ => String.eqb key "item_line"
  | _ => false
  end.


(** The button of one system in the list of the cartridge steps. *)
Definition sysfromcart_button `{PyText} (c : catalog) (cart_art a : string) : list button :=
  [InlineKeyboardButton (system_label c a) ("sysfromcart_" +:+ a +:+ "_" +:+ cart_art)].

(** The message of [send_system_info]. *)
Definition system_info_message `{PyText} (l : lang) (sys_article : string) (rows : list row)
  : message :=
  Message (system_info_lines l sys_article rows) None.

(** The events that can change the language of a session: the tokens
    that start with "lang_". *)
Definition is_language_token (ev : event) : bool :=
  match ev with
  | Selection (Some data) => String.prefix "lang_" data
  | _ => false
  end.

(** The steps that a text message can leave behind, by the step it was
    received in. *)
Definition text_next (st : option step) : list (option step) :=
  match st with
  | None => [Some choose_language]
  | Some await_pro_article => [Some await_pro_article; Some main_menu]
  | Some await_sys_name =>
      [Some await_sys_name; Some main_menu; Some await_choose_system_for_name]
  | Some await_cart_article =>
      [Some await_cart_article; Some main_menu; Some await_choose_system_for_cart]
  | Some await_cart_name =>
      [Some await_cart_name; Some main_menu; Some await_choose_system_for_cart]
  | Some main_menu | Some regular_menu | Some choose_language => [Some main_menu]
  | Some await_choose_system_for_name => [Some await_choose_system_for_name]
  | Some await_choose_system_for_cart => [Some await_choose_system_for_cart]
  end.

(** The step that a menu token asks for; [None] for the tokens of the
    system buttons and for unknown tokens. *)
Definition callback_target (data : string) : option step :=
  if String.prefix "lang_" data then Some main_menu
  else if decide (data = "menu_regular") then Some regular_menu
  else if decide (data = "menu_pro") then Some await_pro_article
  else if decide (data = "menu_lang") then Some choose_language
  else if decide (data = "back_main") then Some main_menu
  else if decide (data = "reg_sys_name") then Some await_sys_name
  else if decide (data = "reg_cart_art") then Some await_cart_article
  else if decide (data = "reg_cart_name") then Some await_cart_name
  else None.

(** [start]: the step and the language are set, then the welcome text is
    sent; there is no [try]. *)
Definition start (user_id : Z) : M unit :=
  set_user_step user_id choose_language;;
  set_user_lang user_id DEFAULT_LANG;;
  deliver (Reply (text_of DEFAULT_LANG "welcome" (Some lang_keyboard))).





(** More example data. *)
Module MoreExamples.
(** A system article with an underscore. *)
Definition underscored : row :=
  Row (Some (CStr "20_07")) (Some (CStr "Geyser-Nanotek")) (Some (CStr "27008"))
      (Some (CStr "CBC 10")) None.

End MoreExamples.

Import MoreExamples.


(** * Properties *)

(** ** Strings *)

Lemma append_cons (c : ascii) (s t : string) : String c s +:+ t = String c (s +:+ t).
Proof. reflexivity. Qed.

Lemma append_empty_r (s : string) : s +:+ "" = s.
Proof. induction s as [|c s IH]; [done | by rewrite append_cons, IH]. Qed.

Lemma append_assoc (s1 s2 s3 : string) : (s1 +:+ s2) +:+ s3 = s1 +:+ (s2 +:+ s3).
Proof. induction s1 as [|c s1 IH]; [done | by rewrite !append_cons, IH]. Qed.

(** The first piece of a split is what precedes the first separator. *)
Lemma split_on_head sep (s : string) : ∀ n cur,
  (String.length s ≤ n)%nat →
  head (split_on sep n cur s) = Some (cur +:+ take_until sep s).
Proof.
  induction s as [|c s IH]; intros n cur Hn; simpl.
  - by rewrite append_empty_r.
  - destruct n as [|m]; [simpl in Hn; lia|].
    destruct (Ascii.eqb c sep) eqn:Hc; simpl.
    + by rewrite append_empty_r.
    + rewrite IH by (simpl in Hn; lia).
      by rewrite append_assoc.
Qed.

Lemma before_dot_take_until (s : string) : before_dot s = take_until "." s.
Proof.
  unfold before_dot, py_split. by rewrite split_on_head.
Qed.

Lemma py_in_single (a c : ascii) (s : string) :
  py_in (String a "") (String c s) = Ascii.eqb a c || py_in (String a "") s.
Proof.
  change (py_in (String a "") (String c s))
    with (String.prefix (String a "") (String c s) || py_in (String a "") s).
  f_equal.
  change (String.prefix (String a "") (String c s))
    with (if ascii_dec a c then String.prefix "" s else false).
  destruct (ascii_dec a c) as [->|Hne].
  - rewrite Ascii.eqb_refl. by destruct s.
  - symmetry. by apply Ascii.eqb_neq.
Qed.

(** A normalized article holds no decimal point. *)
Lemma before_dot_no_dot (s : string) : py_in "." (before_dot s) = false.
Proof.
  rewrite before_dot_take_until.
  induction s as [|c s IH]; cbn [take_until]; [done|].
  destruct (Ascii.eqb c ".") eqn:Hc; [done|].
  by rewrite py_in_single, IH, Ascii.eqb_sym, Hc.
Qed.

(** Normalizing an article twice changes nothing. *)
Lemma before_dot_idempotent (s : string) : before_dot (before_dot s) = before_dot s.
Proof.
  rewrite !before_dot_take_until.
  induction s as [|c s IH]; cbn [take_until]; [done|].
  destruct (Ascii.eqb c ".") eqn:Hc; cbn [take_until]; [done|].
  by rewrite Hc, IH.
Qed.

(** The empty string occurs in every string. *)
Lemma py_in_empty (hay : string) : py_in "" hay = true.
Proof. by destruct hay. Qed.

(** ** The loaded indexes *)

Section CatalogFacts.
Context `{PyText}.

Lemma bucket_get_append (a k : string) (i : nat) (d : gmap string (list nat)) :
  bucket_get a (bucket_append k i d)
  = if decide (a = k) then bucket_get a d ++ [i] else bucket_get a d.
Proof.
  unfold bucket_get, bucket_append. destruct (decide (a = k)) as [->|Hne].
  - by rewrite lookup_insert_eq.
  - by rewrite lookup_insert_ne.
Qed.

Lemma stored_skipped (r : row) : sys_key r = None → stored r = r.
Proof. unfold sys_key, stored. by destruct (r_sys_art r), (r_sys_name r). Qed.

Lemma cart_key_sys_key (r : row) : sys_key r = None → cart_key r = None.
Proof. unfold sys_key, cart_key. by destruct (r_sys_art r), (r_sys_name r). Qed.

(** One iteration of the loop, in terms of [sys_key], [cart_key] and
    [stored]. *)
Lemma index_row_inv (i : nat) (c c' : catalog) (r : row) :
  all_rows c !! i = Some r →
  index_row i c = Some c' →
  all_rows c' = <[i := stored r]> (all_rows c)
  ∧ systems_by_article c'
    = from_option (λ k, bucket_append k i (systems_by_article c))
        (systems_by_article c) (sys_key r)
  ∧ cartridges_by_article c'
    = from_option (λ k, bucket_append k i (cartridges_by_article c))
        (cartridges_by_article c) (cart_key r).
Proof.
  intros Hr Hstep. unfold index_row in Hstep. rewrite Hr in Hstep.
  unfold sys_key, cart_key, stored.
  destruct (r_sys_art r) as [a|], (r_sys_name r) as [nm|]; simplify_eq/=;
    try (by rewrite list_insert_id).
  destruct (normalize_name_cell nm) as [nn|]; simplify_eq/=.
  destruct (r_cart_art r) as [ca|]; [destruct (decide (ca = CStr ""))|];
    by simplify_eq/=.
Qed.

Lemma index_rows_inv (rs : list row) : ∀ (m k : nat) (c c' : catalog),
  index_rows (seq k m) c = Some c' →
  (∀ j, (k ≤ j)%nat → all_rows c !! j = rs !! j) →
  (k + m ≤ length rs)%nat →
  (∀ a, bucket_get a (systems_by_article c')
        = bucket_get a (systems_by_article c)
          ++ filter (λ i, rs !! i ≫= sys_key = Some a) (seq k m))
  ∧ (∀ a, bucket_get a (cartridges_by_article c')
        = bucket_get a (cartridges_by_article c)
          ++ filter (λ i, rs !! i ≫= cart_key = Some a) (seq k m))
  ∧ (∀ j, all_rows c' !! j
        = if decide (k ≤ j < k + m)%nat then stored <$> rs !! j
          else all_rows c !! j).
Proof.
  induction m as [|m IH]; intros k c c' Hrun Hfresh Hlen; simpl in Hrun.
  - simplify_eq. split_and!; intros; rewrite ?app_nil_r; try done.
    by rewrite decide_False by lia.
  - destruct (index_row k c) as [c1|] eqn:Hstep; simplify_eq/=.
    destruct (lookup_lt_is_Some_2 rs k ltac:(lia)) as [r Hr].
    assert (all_rows c !! k = Some r) as Hck by (by rewrite Hfresh).
    destruct (index_row_inv _ _ _ _ Hck Hstep) as (Hrows & Hsys & Hcart).
    destruct (IH (S k) c1 c' Hrun) as (IHsys & IHcart & IHrows); [|lia|].
    { intros j Hj. rewrite Hrows, list_lookup_insert_ne by lia.
      apply Hfresh. lia. }
    split_and!.
    + intros a. rewrite IHsys, Hsys, filter_cons, Hr. simpl.
      destruct (sys_key r) as [key|]; simpl.
      * rewrite bucket_get_append.
        destruct (decide (a = key)) as [->|Hne].
        -- rewrite decide_True by done. by rewrite <-app_assoc.
        -- rewrite decide_False by congruence. done.
      * done.
    + intros a. rewrite IHcart, Hcart, filter_cons, Hr. simpl.
      destruct (cart_key r) as [key|]; simpl.
      * rewrite bucket_get_append.
        destruct (decide (a = key)) as [->|Hne].
        -- rewrite decide_True by done. by rewrite <-app_assoc.
        -- rewrite decide_False by congruence. done.
      * done.
    + intros j. rewrite IHrows, Hrows.
      destruct (decide (j = k)) as [->|Hjk].
      * rewrite decide_False, decide_True by lia.
        rewrite list_lookup_insert_eq by (by eapply lookup_lt_Some).
        by rewrite Hr.
      * rewrite list_lookup_insert_ne by done.
        destruct (decide (S k ≤ j < S k + m)%nat).
        -- by rewrite decide_True by lia.
        -- by rewrite decide_False by lia.
Qed.

(** The indexes after a successful load, stated on the records read. *)
Lemma load_inv (rs : list row) (c : catalog) :
  load_data_from_sheets rs = Some c →
  (∀ a, bucket_get a (systems_by_article c)
        = filter (λ i, rs !! i ≫= sys_key = Some a) (seq 0 (length rs)))
  ∧ (∀ a, bucket_get a (cartridges_by_article c)
        = filter (λ i, rs !! i ≫= cart_key = Some a) (seq 0 (length rs)))
  ∧ all_rows c = stored <$> rs.
Proof.
  intros Hload. unfold load_data_from_sheets in Hload.
  destruct (index_rows_inv rs _ _ _ _ Hload) as (Hsys & Hcart & Hrows);
    [done | simpl; lia |].
  split_and!.
  - intros a. by rewrite Hsys.
  - intros a. by rewrite Hcart.
  - apply list_eq. intros j. rewrite Hrows, list_lookup_fmap. simpl.
    case_decide as Hin; [done|].
    by rewrite lookup_ge_None_2 by lia.
Qed.
End CatalogFacts.

(** Reading the rows behind the filtered positions gives the filtered
    rows. *)
Lemma omap_lookup_filter_seq (key : row → option string) (a : string) (f : row → row) :
  ∀ (rs pre : list row),
    omap (λ i, (f <$> (pre ++ rs)) !! i)
         (filter (λ i, (pre ++ rs) !! i ≫= key = Some a) (seq (length pre) (length rs)))
    = f <$> filter (λ r, key r = Some a) rs.
Proof.
  induction rs as [|r rs IH]; intros pre; [done|].
  cbn [length seq]. rewrite !filter_cons, list_lookup_middle by done. cbn [mbind option_bind].
  assert (Htail : omap (λ i, (f <$> (pre ++ r :: rs)) !! i)
                    (filter (λ i, (pre ++ r :: rs) !! i ≫= key = Some a)
                       (seq (S (length pre)) (length rs)))
                  = f <$> filter (λ r, key r = Some a) rs).
  { rewrite (cons_middle r pre rs), app_assoc.
    replace (S (length pre)) with (length (pre ++ [r]))
      by (rewrite length_app; simpl; lia).
    apply IH. }
  case_decide.
  - cbn [omap list_omap]. rewrite list_lookup_fmap, list_lookup_middle by done.
    cbn [fmap option_fmap option_map]. rewrite fmap_cons. f_equal. apply Htail.
  - apply Htail.
Qed.

Section CatalogClaims.
Context `{PyText}.

(** C1 (amended).  After a successful load, looking up an article [a] in
    the system-article index returns exactly the positions, in increasing
    order, of the records that have both a system article and a system
    name and whose system article normalizes to [a]; the rows read through
    them are those records, in their original relative order, with the
    article fields rewritten by the load. *)
Theorem lookup_by_system_article_round_trip (rs : list row) (c : catalog) (a : string) :
  load_data_from_sheets rs = Some c →
  bucket_get a (systems_by_article c)
  = filter (λ i, rs !! i ≫= sys_key = Some a) (seq 0 (length rs))
  ∧ rows_of c a (systems_by_article c)
    = stored <$> filter (λ r, sys_key r = Some a) rs.
Proof.
  intros Hload. destruct (load_inv rs c Hload) as (Hsys & _ & Hrows).
  split; [apply Hsys|].
  unfold rows_of, rows_at. rewrite Hsys, Hrows.
  apply (omap_lookup_filter_seq sys_key a stored rs []).
Qed.

(** C2 (amended).  The load drops a record exactly when it lacks a system
    article or lacks a system name: such a record is in no bucket of
    either article index and stays as it was read, and a record that has
    both is filed under its normalized system article. *)
Theorem row_dropped_iff (rs : list row) (c : catalog) (i : nat) (r : row) :
  load_data_from_sheets rs = Some c →
  rs !! i = Some r →
  ((r_sys_art r = None ∨ r_sys_name r = None)
     ↔ ∀ a, i ∉ bucket_get a (systems_by_article c))
  ∧ ((r_sys_art r = None ∨ r_sys_name r = None) →
       (∀ a, i ∉ bucket_get a (cartridges_by_article c)) ∧ all_rows c !! i = Some r)
  ∧ (∀ v nm, r_sys_art r = Some v → r_sys_name r = Some nm →
       i ∈ bucket_get (before_dot (py_str v)) (systems_by_article c)).
Proof.
  intros Hload Hr. destruct (load_inv rs c Hload) as (Hsys & Hcart & Hrows).
  assert (Hin : ∀ (key : row → option string) a,
            i ∈ filter (λ j, rs !! j ≫= key = Some a) (seq 0 (length rs))
            ↔ key r = Some a).
  { intros key a. rewrite list_elem_of_filter, Hr, elem_of_seq. simpl.
    apply lookup_lt_Some in Hr. split; [tauto | intros; split; [done | lia]]. }
  assert (Hnone : (r_sys_art r = None ∨ r_sys_name r = None) ↔ sys_key r = None).
  { unfold sys_key.
    destruct (r_sys_art r), (r_sys_name r); split; intros Hx;
      try done; try (by left); try (by right); by destruct Hx. }
  split_and!.
  - rewrite Hnone. split.
    + intros Hk a. rewrite Hsys, Hin, Hk. done.
    + intros Hall. destruct (sys_key r) as [k|] eqn:Hk; [|done].
      exfalso. apply (Hall k). by rewrite Hsys, Hin.
  - rewrite Hnone. intros Hk. split.
    + intros a. rewrite Hcart, Hin, (cart_key_sys_key r Hk). done.
    + rewrite Hrows, list_lookup_fmap, Hr. simpl.
      by rewrite (stored_skipped r Hk).
  - intros v nm Hv Hnm. rewrite Hsys, Hin. unfold sys_key. by rewrite Hv, Hnm.
Qed.
End CatalogClaims.

(** C1, as stated, fails: a record with system article "20001" and no
    system name has an article that normalizes to "20001", and the lookup
    of "20001" after the load returns nothing. *)
Lemma round_trip_misses_nameless_record :
  ∃ c, load_data_from_sheets [nameless] = Some c
       ∧ article_normalizes_to "20001" nameless = true
       ∧ bucket_get "20001" (systems_by_article c) = [].
Proof. eexists. split_and!; vm_compute; reflexivity. Qed.

Lemma lookup_by_system_article_round_trip_witness :
  load_data_from_sheets sheet = Some (loaded sheet)
  ∧ bucket_get "20001" (systems_by_article (loaded sheet))
    = filter (λ i, sheet !! i ≫= sys_key = Some "20001") (seq 0 (length sheet))
  ∧ rows_of (loaded sheet) "20001" (systems_by_article (loaded sheet))
    = stored <$> filter (λ r, sys_key r = Some "20001") sheet.
Proof.
  split; [vm_compute; reflexivity|].
  apply (lookup_by_system_article_round_trip sheet (loaded sheet) "20001").
  vm_compute; reflexivity.
Defined.

(** C2, as stated, fails: a record with system article "30005" and no
    system name is not filed under "30005"; the index stays empty. *)
Lemma nameless_record_not_indexed :
  ∃ c, load_data_from_sheets [nameless2] = Some c
       ∧ r_sys_art nameless2 = Some (CStr "30005")
       ∧ r_sys_name nameless2 = None
       ∧ bucket_get "30005" (systems_by_article c) = []
       ∧ systems_by_article c = ∅.
Proof. eexists. split_and!; vm_compute; reflexivity. Qed.

Lemma row_dropped_iff_witness :
  load_data_from_sheets [nameless; prestige] = Some (loaded [nameless; prestige])
  ∧ [nameless; prestige] !! 0%nat = Some nameless
  ∧ (((r_sys_art nameless = None ∨ r_sys_name nameless = None)
       ↔ ∀ a, 0%nat ∉ bucket_get a (systems_by_article (loaded [nameless; prestige])))
     ∧ ((r_sys_art nameless = None ∨ r_sys_name nameless = None) →
          (∀ a, 0%nat ∉ bucket_get a (cartridges_by_article (loaded [nameless; prestige])))
          ∧ all_rows (loaded [nameless; prestige]) !! 0%nat = Some nameless)
     ∧ (∀ v nm, r_sys_art nameless = Some v → r_sys_name nameless = Some nm →
          0%nat ∈ bucket_get (before_dot (py_str v))
                    (systems_by_article (loaded [nameless; prestige])))).
Proof.
  split; [vm_compute; reflexivity|]. split; [reflexivity|].
  apply (row_dropped_iff [nameless; prestige] (loaded [nameless; prestige]) 0 nameless);
    [vm_compute; reflexivity | reflexivity].
Defined.

(** ** Classification *)

Section Classify.
Context `{PyText}.

(** The two lists that the loop of [split_kits_and_items] builds are the
    two filters of its input. *)
Lemma split_kits_and_items_filter (rows : list row) :
  split_kits_and_items rows
  = (filter (λ r, is_kit r) rows, filter (λ r, ¬ is_kit r) rows).
Proof.
  unfold split_kits_and_items.
  enough (Hgen : ∀ kits singles,
             foldl (λ '(kits, singles) r,
                      if is_kit r then (kits ++ [r], singles)
                      else (kits, singles ++ [r]))
                   (kits, singles) rows
             = (kits ++ filter (λ r, is_kit r) rows,
                singles ++ filter (λ r, ¬ is_kit r) rows))
    by apply (Hgen [] []).
  induction rows as [|r rows IH]; intros kits singles; simpl.
  - by rewrite !app_nil_r.
  - rewrite !filter_cons. destruct (is_kit r) eqn:Hr; rewrite IH; simpl.
    + by rewrite <-app_assoc.
    + by rewrite <-app_assoc.
Qed.

(** C8.  [split_kits_and_items] partitions its input: a row is in the
    input exactly when it is among the kits or among the singles, no row
    is in both, the two lists together hold every occurrence of every
    input row exactly once, and each list keeps the rows in the order they
    had in the input. *)
Theorem split_kits_and_items_partition (rows : list row) :
  let kits := fst (split_kits_and_items rows) in
  let singles := snd (split_kits_and_items rows) in
  (∀ r, r ∈ rows ↔ r ∈ kits ∨ r ∈ singles)
  ∧ (∀ r, ¬ (r ∈ kits ∧ r ∈ singles))
  ∧ kits ++ singles ≡ₚ rows
  ∧ sublist kits rows
  ∧ sublist singles rows.
Proof.
  rewrite split_kits_and_items_filter. simpl. split_and!.
  - intros r. rewrite !list_elem_of_filter.
    destruct (is_kit r); simpl; tauto.
  - intros r. rewrite !list_elem_of_filter. tauto.
  - apply filter_app_complement.
  - apply sublist_filter.
  - apply sublist_filter.
Qed.
End Classify.

(** ** The name index of a loaded catalog *)

Section NameIndex.
Context `{PyText}.

Lemma name_register_ok (k a : string) (d : list (string * list string)) :
  k ≠ "" → names_ok d → names_ok (name_register k a d).
Proof.
  intros Hk. unfold names_ok. induction 1 as [|[k' arts] d [Hk' Harts] Hd IH]; simpl.
  - repeat constructor; done.
  - destruct (decide (k = k')) as [->|Hne].
    + constructor; [|done]. split; [done|]. simpl.
      destruct (decide (a ∈ arts)); [done|]. by destruct arts.
    + constructor; [done|]. apply IH.
Qed.

Lemma index_row_names_ok (i : nat) (c c' : catalog) :
  index_row i c = Some c' → names_ok (systems_by_name c) → names_ok (systems_by_name c').
Proof.
  unfold index_row. intros Hstep Hok.
  destruct (all_rows c !! i) as [r|]; [|by simplify_eq].
  destruct (r_sys_art r) as [a|], (r_sys_name r) as [nm|]; simplify_eq/=; try done.
  destruct (normalize_name_cell nm) as [nn|]; simplify_eq/=.
  assert (names_ok (if decide (nn = "") then systems_by_name c
                    else name_register nn (before_dot (py_str a)) (systems_by_name c)))
    by (destruct (decide (nn = "")); [done | by apply name_register_ok]).
  destruct (r_cart_art r) as [ca|]; [destruct (decide (ca = CStr ""))|];
    by simplify_eq/=.
Qed.

Lemma index_rows_names_ok (positions : list nat) : ∀ (c c' : catalog),
  index_rows positions c = Some c' →
  names_ok (systems_by_name c) → names_ok (systems_by_name c').
Proof.
  induction positions as [|i rest IH]; intros c c' Hrun Hok; simpl in Hrun.
  - by simplify_eq.
  - destruct (index_row i c) as [c1|] eqn:Hstep; simplify_eq/=.
    apply (IH c1); [done|]. by apply (index_row_names_ok i c c1).
Qed.

(** After a load, every name of the index is non-empty and has at least
    one article: an exact match is never empty, and the substring search
    of "await_sys_name" starts from a list of its own. *)
Lemma load_names_ok (rs : list row) (c : catalog) :
  load_data_from_sheets rs = Some c → names_ok (systems_by_name c).
Proof.
  intros Hload. apply (index_rows_names_ok _ _ _ Hload). constructor.
Qed.
End NameIndex.

(** ** Lookup of system articles by name *)

Lemma dedup_first_filter (P : string → Prop) `{!∀ x, Decision (P x)} (l : list string) :
  dedup_first (filter P l) = filter P (dedup_first l).
Proof.
  induction l as [|x l IH]; [done|]. simpl.
  rewrite !filter_cons. destruct (decide (P x)) as [HP|HP]; simpl.
  - rewrite IH, !list_filter_filter. f_equal.
    apply list_filter_iff. tauto.
  - rewrite IH, list_filter_filter. apply list_filter_iff.
    intros y. split; [|tauto]. intros Hy. split; [done|]. by intros ->.
Qed.

Lemma dedup_first_elem_of (l : list string) (x : string) : x ∈ dedup_first l ↔ x ∈ l.
Proof.
  induction l as [|y l IH]; [done|]. simpl.
  rewrite !elem_of_cons, list_elem_of_filter, IH.
  destruct (decide (x = y)); tauto.
Qed.

Lemma dedup_first_NoDup (l : list string) : NoDup (dedup_first l).
Proof.
  induction l as [|y l IH]; simpl; [constructor|].
  constructor.
  - rewrite list_elem_of_filter. tauto.
  - by apply NoDup_filter.
Qed.

Section NameLookup.
Context `{PyText}.

(** The loop [if a not in acc: acc.append(a)] adds to [acc] the new
    elements of the list, each at its first position. *)
Lemma foldl_add_new (l : list string) : ∀ acc,
  foldl add_new acc l = acc ++ dedup_first (filter (λ x, x ∉ acc) l).
Proof.
  induction l as [|x l IH]; intros acc; simpl.
  - by rewrite app_nil_r.
  - rewrite filter_cons. unfold add_new at 2.
    destruct (decide (x ∈ acc)) as [Hin|Hout].
    + rewrite decide_False by tauto. apply IH.
    + rewrite decide_True by done. simpl.
      rewrite IH, <-app_assoc. simpl. do 2 f_equal.
      rewrite <-dedup_first_filter, list_filter_filter. f_equal.
      apply list_filter_iff. intros y.
      rewrite elem_of_app, list_elem_of_singleton. tauto.
Qed.

(** The two nested loops of the substring search are one pass of
    [add_new] over the buckets of the matching names, laid end to end. *)
Lemma substring_loop_concat (q : string) (d : list (string * list string)) : ∀ acc,
  foldl (λ acc '(name_norm, arts),
           if py_in q name_norm then foldl add_new acc arts else acc) acc d
  = foldl add_new acc (concat (map snd (filter (λ kv, py_in q (fst kv)) d))).
Proof.
  induction d as [|[k arts] d IH]; intros acc; simpl; [done|].
  rewrite filter_cons. simpl. destruct (py_in q k); simpl.
  - by rewrite foldl_app, IH.
  - by rewrite IH.
Qed.

Lemma substring_loop_union (q : string) (d : list (string * list string)) :
  foldl (λ acc '(name_norm, arts),
           if py_in q name_norm then foldl add_new acc arts else acc) [] d
  = substring_union q d.
Proof.
  rewrite substring_loop_concat, foldl_add_new. simpl.
  unfold substring_union. f_equal.
  induction (concat _) as [|x l IH]; [done|].
  rewrite filter_cons_True by apply not_elem_of_nil. by rewrite IH.
Qed.

(** A name that is not a key has no exact match. *)
Lemma name_get_not_key (k : string) (d : list (string * list string)) :
  k ∉ map fst d → name_get k d = [].
Proof.
  induction d as [|[k' arts] d IH]; simpl; [done|].
  rewrite not_elem_of_cons. intros [Hne Hrest].
  by rewrite decide_False, IH.
Qed.

(** C3.  For every name index and every name query: when the normalized
    query has an exact match, the lookup returns that bucket and nothing
    else; when it has none, the lookup returns the articles of all the
    names that contain the normalized query, without repetition, in the
    order first met. *)
Theorem lookup_system_articles_by_name_precedence
    (by_name : list (string * list string)) (query : string) :
  let q := normalize_name query in
  let exact := name_get q by_name in
  (exact ≠ [] → candidate_articles q by_name = exact)
  ∧ (exact = [] → candidate_articles q by_name = substring_union q by_name).
Proof.
  intros q exact. subst exact. unfold candidate_articles.
  destruct (name_get q by_name) as [|a found] eqn:Hexact.
  - split; [done|]. intros _. apply substring_loop_union.
  - split; [done|]. intros Hnil. discriminate Hnil.
Qed.

(** C10.  When the input normalizes to the empty string and the empty
    string is not a key of the name index, every key matches the substring
    test, and the lookup returns all the articles of the name index, each
    once, in the order first met: an article is in the result exactly when
    it is in some bucket. *)
Theorem empty_name_query_matches_everything
    (by_name : list (string * list string)) (text : string) :
  normalize_name text = "" →
  "" ∉ map fst by_name →
  candidate_articles (normalize_name text) by_name
  = dedup_first (concat (map snd by_name))
  ∧ ∀ a, a ∈ candidate_articles (normalize_name text) by_name
         ↔ ∃ name arts, (name, arts) ∈ by_name ∧ a ∈ arts.
Proof.
  intros -> Hkey.
  assert (Hall : candidate_articles "" by_name = dedup_first (concat (map snd by_name))).
  { unfold candidate_articles. rewrite (name_get_not_key _ _ Hkey).
    rewrite substring_loop_union. unfold substring_union. do 3 f_equal.
    induction by_name as [|[k arts] d IH]; [done|].
    rewrite filter_cons_True by (simpl; by rewrite py_in_empty).
    rewrite IH; [done|]. simpl in Hkey. by apply not_elem_of_cons in Hkey as [_ ?]. }
  split; [done|]. intros a. rewrite Hall, dedup_first_elem_of.
  clear. induction by_name as [|[k arts] d IH]; simpl.
  - split; [by intros ?%elem_of_nil | by intros (? & ? & ?%elem_of_nil & _)].
  - rewrite elem_of_app, IH. split.
    + intros [Ha|(name & arts' & Hin & Ha)].
      * exists k, arts. split; [left | done].
      * exists name, arts'. split; [by right | done].
    + intros (name & arts' & Hin & Ha). apply elem_of_cons in Hin as [Heq|Hin].
      * left. by simplify_eq.
      * right. by exists name, arts'.
Qed.
End NameLookup.

Lemma empty_name_query_matches_everything_witness :
  normalize_name "  " = ""
  ∧ ("" ∉ map fst (systems_by_name (loaded sheet)))
  ∧ candidate_articles (normalize_name "  ") (systems_by_name (loaded sheet))
    = dedup_first (concat (map snd (systems_by_name (loaded sheet)))).
Proof.
  assert (Hkey : "" ∉ map fst (systems_by_name (loaded sheet)))
    by (apply (bool_decide_unpack _); vm_compute; exact I).
  split; [reflexivity|]. split; [exact Hkey|].
  exact (proj1 (empty_name_query_matches_everything
                  (systems_by_name (loaded sheet)) "  " eq_refl Hkey)).
Defined.

(** ** The handlers *)

Lemma deliver_ok (o : call) (w : world) :
  hd true (network w) = true →
  deliver o w = (Ok (), World (user_states w) (outbox w ++ [o]) (tail (network w))).
Proof. unfold deliver. by destruct (network w) as [|[] rest]. Qed.

Lemma deliver_fail (o : call) (w : world) :
  hd true (network w) = false →
  deliver o w = (Raised, World (user_states w) (outbox w) (tail (network w))).
Proof. unfold deliver. by destruct (network w) as [|[] rest]. Qed.

Section TextFacts.
Context `{PyText}.

Lemma py_lstrip_whitespace (s : string) : whitespace_only s = true → py_lstrip s = "".
Proof.
  induction s as [|ch s IH]; simpl; [done|].
  intros [Hc Hs]%andb_prop. rewrite Hc. by apply IH.
Qed.

(** Whitespace-only text has no first token. *)
Lemma no_first_token (s : string) :
  whitespace_only s = true → head (py_split_ws (py_strip s)) = None.
Proof. intros Hs. unfold py_strip. by rewrite py_lstrip_whitespace. Qed.
End TextFacts.

Section HandlerClaims.
Context `{PyText}.

(** C9.  In the steps "await_pro_article" and "await_cart_article", an
    empty or whitespace-only text makes the first-token extraction raise
    before anything else is done; [handle_text] then takes its [except]
    clause: the session table, and so the step, is unchanged, and the one
    call made is the reply with the generic error text, which the user
    receives when its delivery succeeds. *)
Theorem empty_article_input_keeps_step
    (c : catalog) (user_id : Z) (message_text : option string) (w : world) (st : step) :
  s_step (session_of w user_id) = Some st →
  st = await_pro_article ∨ st = await_cart_article →
  whitespace_only (default "" message_text) = true →
  let l := user_lang w user_id in
  handle_text_try c user_id l (py_strip (default "" message_text)) (Some st) w
    = (Raised, w)
  ∧ handle_text c user_id message_text w = deliver (Reply (error_message l)) w
  ∧ user_states (snd (handle_text c user_id message_text w)) = user_states w
  ∧ (hd true (network w) = true →
       handle_text c user_id message_text w
       = (Ok (), World (user_states w) (outbox w ++ [Reply (error_message l)])
                   (tail (network w)))).
Proof.
  intros Hst Hawait Hws l.
  pose proof (no_first_token _ Hws) as Htok.
  assert (Htry : handle_text_try c user_id l (py_strip (default "" message_text))
                   (Some st) w = (Raised, w)).
  { destruct Hawait as [-> | ->]; unfold handle_text_try; by rewrite Htok. }
  assert (Hrun : handle_text c user_id message_text w
                 = deliver (Reply (error_message l)) w).
  { unfold handle_text, mbind, M_bind, get_user_lang, get_user_step, try_except.
    fold (session_of w user_id). fold (user_lang w user_id). rewrite Hst. fold l.
    by rewrite Htry. }
  split_and!; [done | done | |].
  - rewrite Hrun. unfold deliver. by destruct (network w) as [|[] rest].
  - intros Hnet. by rewrite Hrun, deliver_ok.
Qed.
End HandlerClaims.

Lemma empty_article_input_keeps_step_witness :
  s_step (session_of (at_step await_cart_article) user) = Some await_cart_article
  ∧ (await_cart_article = await_pro_article ∨ await_cart_article = await_cart_article)
  ∧ whitespace_only (default "" (Some "   ")) = true
  ∧ user_states (snd (handle_text (loaded sheet) user (Some "   ")
                        (at_step await_cart_article)))
    = user_states (at_step await_cart_article).
Proof.
  split; [reflexivity|]. split; [by right|]. split; [reflexivity|].
  apply (empty_article_input_keeps_step (loaded sheet) user (Some "   ")
           (at_step await_cart_article) await_cart_article);
    [reflexivity | by right | reflexivity].
Defined.

Section CartridgeLookup.
Context `{PyText}.

(** The rows read under a key of the cartridge index of a loaded
    catalog. *)
Lemma cartridge_rows (rs : list row) (c : catalog) (key : string) :
  load_data_from_sheets rs = Some c →
  rows_of c key (cartridges_by_article c)
  = stored <$> filter (λ r, cart_key r = Some key) rs.
Proof.
  intros Hload. destruct (load_inv rs c Hload) as (_ & Hcart & Hrows).
  unfold rows_of, rows_at. rewrite Hcart, Hrows.
  apply (omap_lookup_filter_seq cart_key key stored rs []).
Qed.

(** No record is filed under a key that holds a decimal point. *)
Lemma cart_key_no_dot (r : row) (key : string) :
  cart_key r = Some key → py_in "." key = false.
Proof.
  unfold cart_key. intros Hk.
  destruct (r_sys_art r), (r_sys_name r), (r_cart_art r) as [ca|]; try done.
  destruct (decide (ca = CStr "")); [done|].
  injection Hk as <-. apply before_dot_no_dot.
Qed.

Lemma cart_key_dot_none (rs : list row) (key : string) :
  py_in "." key = true → filter (λ r, cart_key r = Some key) rs = [].
Proof.
  intros Hdot. induction rs as [|r rs IH]; [done|].
  rewrite filter_cons_False; [apply IH|].
  intros Hk. apply cart_key_no_dot in Hk. congruence.
Qed.

(** C5 (amended).  In the step "await_cart_article" the lookup is an
    exact match of the first whitespace-delimited token of the trimmed
    input against the keys of the cartridge index; the token is not
    stripped of a decimal suffix.  It returns the indexed records whose
    normalized cartridge article is the token itself, so a token with a
    decimal point finds nothing; and when nothing is found the reply is
    "no cartridges found" followed by the main menu. *)
Theorem cartridge_article_lookup_exact_token
    (rs : list row) (c : catalog) (user_id : Z) (text token : string) (w : world) :
  load_data_from_sheets rs = Some c →
  s_step (session_of w user_id) = Some await_cart_article →
  head (py_split_ws (py_strip text)) = Some token →
  network w = [] →
  let l := user_lang w user_id in
  let found := rows_of c token (cartridges_by_article c) in
  found = stored <$> filter (λ r, cart_key r = Some token) rs
  ∧ (py_in "." token = true → found = [])
  ∧ (found = [] →
       handle_text c user_id (Some text) w
       = (Ok (), World (with_step user_id main_menu (user_states w))
                   (outbox w ++ [Reply (text_of l "no_cartridges_found" None);
                                 Reply (main_menu_message l)])
                   [])).
Proof.
  intros Hload Hst Htok Hnet l found.
  assert (Hfound : found = stored <$> filter (λ r, cart_key r = Some token) rs)
    by apply (cartridge_rows rs c token Hload).
  split_and!; [done | |].
  - intros Hdot. rewrite Hfound.
    by rewrite (cart_key_dot_none rs token Hdot).
  - intros Hnone.
    unfold handle_text, mbind, M_bind, get_user_lang, get_user_step, try_except.
    fold (session_of w user_id). fold (user_lang w user_id). rewrite Hst. fold l.
    simpl default.
    unfold handle_text_try. rewrite Htok. simpl lift_opt.
    unfold mbind, M_bind, mret, M_ret. fold found. rewrite Hnone.
    unfold deliver, set_user_step. rewrite Hnet. simpl.
    unfold with_step, main_menu_message. by rewrite <-app_assoc.
Qed.
End CartridgeLookup.

(** C5, as stated, fails: "27008" is a key of the cartridge index, the
    input "27008.0" would normalize to it, and the handler answers
    "no cartridges found". *)
Lemma decimal_cartridge_query_finds_nothing :
  bucket_get "27008" (cartridges_by_article (loaded sheet)) = [0%nat; 2%nat]
  ∧ before_dot "27008.0" = "27008"
  ∧ outbox (snd (handle_text (loaded sheet) user (Some "27008.0")
                   (at_step await_cart_article)))
    = [Reply (text_of LANG_EN "no_cartridges_found" None);
       Reply (main_menu_message LANG_EN)].
Proof. split_and!; vm_compute; reflexivity. Qed.

Lemma cartridge_article_lookup_exact_token_witness :
  load_data_from_sheets sheet = Some (loaded sheet)
  ∧ s_step (session_of (at_step await_cart_article) user) = Some await_cart_article
  ∧ head (py_split_ws (py_strip " 27008.0 ")) = Some "27008.0"
  ∧ network (at_step await_cart_article) = []
  ∧ (py_in "." "27008.0" = true →
       rows_of (loaded sheet) "27008.0" (cartridges_by_article (loaded sheet)) = []).
Proof.
  split; [vm_compute; reflexivity|]. split; [reflexivity|].
  split; [vm_compute; reflexivity|]. split; [reflexivity|].
  apply (cartridge_article_lookup_exact_token sheet (loaded sheet) user " 27008.0 "
           "27008.0" (at_step await_cart_article));
    [vm_compute; reflexivity | reflexivity | vm_compute; reflexivity | reflexivity].
Defined.

(** ** Faults *)

(** Run the monadic steps in a hypothesis. *)
Ltac run_in H :=
  repeat (unfold mbind, M_bind, mret, M_ret, lift_opt, raise, send_system_info,
            set_user_step, set_user_lang, deliver in H;
          cbv beta iota in H;
          cbn [user_states outbox network fst snd] in H).

(** A run that attempted a delivery has a longer outbox or fewer pending
    outcomes. *)
Ltac absurd_trace Hout Hnet :=
  cbn [user_states outbox network] in *;
  first
    [ apply (f_equal length) in Hout; rewrite ?length_app in Hout; simpl in Hout; lia
    | try match goal with Hw : network _ = _ :: _ |- _ => rewrite Hw in Hnet end;
      apply (f_equal length) in Hnet; simpl in Hnet; lia ].

Section Faults.
Context `{PyText}.

(** A [try] block of [handle_text] that raises without having attempted a
    delivery has not touched the session table. *)
Lemma text_try_quiet_fault (c : catalog) (user_id : Z) (l : lang) (text : string)
    (st : option step) (w w1 : world) :
  handle_text_try c user_id l text st w = (Raised, w1) →
  outbox w1 = outbox w → network w1 = network w →
  user_states w1 = user_states w.
Proof.
  intros Htry Hout Hnet. unfold handle_text_try in Htry.
  destruct st as [[]|]; run_in Htry.
  all: repeat (case_match; run_in Htry); simplify_eq; try done.
  all: absurd_trace Hout Hnet.
Qed.

(** The same for [handle_callback]. *)
Lemma callback_try_quiet_fault (c : catalog) (user_id : Z) (l : lang)
    (query_data : option string) (w w1 : world) :
  handle_callback_try c user_id l query_data w = (Raised, w1) →
  outbox w1 = outbox w → network w1 = network w →
  user_states w1 = user_states w.
Proof.
  intros Htry Hout Hnet. unfold handle_callback_try in Htry.
  destruct query_data as [data|]; run_in Htry; [|by simplify_eq].
  repeat (case_match; run_in Htry); simplify_eq; try done.
  all: absurd_trace Hout Hnet.
Qed.

(** A handler that reaches its [try] block runs it, and on a fault runs
    the [except] clause from the world the fault left. *)
Lemma handle_event_try_block (c : catalog) (user_id : Z) (ev : event) (w : world) :
  reaches_try ev w →
  handle_event c user_id ev w
  = match try_block c user_id ev w with
    | (Raised, w1) =>
        deliver (Reply (error_message
                          match ev with
                          | Selection _ => user_lang w1 user_id
                          | FreeText _ => user_lang w user_id
                          end)) w1
    | done => done
    end.
Proof.
  intros Hreach. destruct ev as [query_data | message_text]; simpl in *.
  - unfold handle_callback. unfold mbind at 1, M_bind at 1.
    rewrite (deliver_ok _ _ Hreach). fold (answered w).
    unfold mbind, M_bind, get_user_lang, try_except.
    change (default DEFAULT_LANG
              (s_lang (default empty_session (user_states (answered w) !! user_id))))
      with (user_lang w user_id).
    by destruct (handle_callback_try _ _ _ _ _) as [[[]|] w1].
  - unfold handle_text, mbind, M_bind, get_user_lang, get_user_step, try_except.
    change (default DEFAULT_LANG
              (s_lang (default empty_session (user_states w !! user_id))))
      with (user_lang w user_id).
    change (default empty_session (user_states w !! user_id))
      with (session_of w user_id).
    by destruct (handle_text_try _ _ _ _ _ _) as [[[]|] w1].
Qed.

(** C4 (amended).  For every session table and every event whose handler
    reaches its [try] block: if the block hits a fault, the handler makes
    one more call, the reply with the generic error text in the language
    of the session, and changes no session state after the fault.  The
    session table after the handler is the table at the moment of the
    fault: it is neither reset nor rolled back.  It is the table from
    before the event when the fault came before any delivery was
    attempted. *)
Theorem fault_keeps_state_at_fault
    (c : catalog) (user_id : Z) (ev : event) (w w1 : world) :
  reaches_try ev w →
  try_block c user_id ev w = (Raised, w1) →
  let l := match ev with
           | Selection _ => user_lang w1 user_id
           | FreeText _ => user_lang w user_id
           end in
  user_states (snd (handle_event c user_id ev w)) = user_states w1
  ∧ (hd true (network w1) = true →
       handle_event c user_id ev w
       = (Ok (), World (user_states w1) (outbox w1 ++ [Reply (error_message l)])
                   (tail (network w1))))
  ∧ (outbox w1 = outbox (try_start ev w) → network w1 = network (try_start ev w) →
       user_states w1 = user_states w).
Proof.
  intros Hreach Htry l.
  rewrite (handle_event_try_block c user_id ev w Hreach), Htry. fold l.
  split_and!.
  - unfold deliver. by destruct (network w1) as [|[] rest].
  - intros Hnet. by rewrite deliver_ok.
  - intros Hout Hnet. destruct ev as [query_data | message_text]; simpl in *.
    + by rewrite (callback_try_quiet_fault _ _ _ _ _ _ Htry Hout Hnet).
    + by apply (text_try_quiet_fault _ _ _ _ _ _ _ Htry Hout Hnet).
Qed.
End Faults.

(** C4, as stated, fails: in the step "regular_menu", the button
    "menu_pro" sets the step "await_pro_article" and then edits the message;
    when that delivery raises, the user receives the error text and the step
    stays "await_pro_article". *)
Lemma delivery_fault_after_step_change :
  let w := at_step_net regular_menu [true; false] in
  let w' := snd (handle_event (loaded sheet) user (Selection (Some "menu_pro")) w) in
  fst (try_block (loaded sheet) user (Selection (Some "menu_pro")) w) = Raised
  ∧ outbox w' = [Answer; Reply (error_message LANG_EN)]
  ∧ s_step (session_of w user) = Some regular_menu
  ∧ s_step (session_of w' user) = Some await_pro_article.
Proof. split_and!; vm_compute; reflexivity. Qed.

Lemma fault_keeps_state_at_fault_witness :
  let w := at_step await_pro_article in
  reaches_try (FreeText (Some "  ")) w
  ∧ try_block (loaded sheet) user (FreeText (Some "  ")) w = (Raised, w)
  ∧ user_states (snd (handle_event (loaded sheet) user (FreeText (Some "  ")) w))
    = user_states w.
Proof.
  intros w. split; [exact I|]. split; [vm_compute; reflexivity|].
  refine (proj1 (fault_keeps_state_at_fault (loaded sheet) user (FreeText (Some "  "))
                   w w I _)).
  vm_compute; reflexivity.
Defined.

(** ** Unrecognized input *)

Section Unrecognized.
Context `{PyText}.

(** A token without a branch in [handle_callback] runs none of them. *)
Lemma callback_try_unrecognized (c : catalog) (user_id : Z) (l : lang)
    (data : string) (w : world) :
  recognized data = false →
  handle_callback_try c user_id l (Some data) w = (Ok (), w).
Proof.
  unfold recognized. intros Hrec.
  apply orb_false_elim in Hrec as [Hrec Hfromcart].
  apply orb_false_elim in Hrec as [Hrec Hsys].
  apply orb_false_elim in Hrec as [Hlang Hlit].
  apply bool_decide_eq_false in Hlit. rewrite !not_elem_of_cons in Hlit.
  destruct Hlit as (? & ? & ? & ? & ? & ? & ? & _).
  unfold handle_callback_try, mbind, M_bind, lift_opt, mret, M_ret.
  rewrite Hlang, Hsys, Hfromcart.
  by rewrite !decide_False by done.
Qed.

(** C7 (amended).  For every session in a resting step ("main_menu",
    "regular_menu", "choose_language"), with deliveries succeeding: any
    text makes [handle_text] set the step "main_menu" and send the main
    menu, with no other message; a selection token that matches no known
    token or prefix is answered and nothing more, so no menu is rendered
    and the session is unchanged; a selection without data gets the
    generic error text. *)
Theorem unrecognized_input_in_resting_step
    (c : catalog) (user_id : Z) (ev : event) (w : world) (st : step) :
  s_step (session_of w user_id) = Some st →
  resting st = true →
  network w = [] →
  let l := user_lang w user_id in
  match ev with
  | FreeText _ =>
      handle_event c user_id ev w
      = (Ok (), World (with_step user_id main_menu (user_states w))
                  (outbox w ++ [Reply (main_menu_message l)]) [])
  | Selection (Some data) =>
      recognized data = false →
      handle_event c user_id ev w
      = (Ok (), World (user_states w) (outbox w ++ [Answer]) [])
  | Selection None =>
      handle_event c user_id ev w
      = (Ok (), World (user_states w) (outbox w ++ [Answer; Reply (error_message l)]) [])
  end.
Proof.
  intros Hst Hrest Hnet l.
  assert (Hreach : reaches_try ev w) by (destruct ev; simpl; by rewrite ?Hnet).
  rewrite (handle_event_try_block c user_id ev w Hreach).
  destruct ev as [[data|] | message_text]; simpl.
  - intros Hrec. rewrite (callback_try_unrecognized _ _ _ _ _ Hrec).
    unfold answered. by rewrite Hnet.
  - unfold handle_callback_try, mbind, M_bind, lift_opt, raise, deliver, answered.
    simpl. rewrite Hnet. simpl. by rewrite <-app_assoc.
  - rewrite Hst. fold l.
    destruct st; try discriminate Hrest;
      unfold handle_text_try, mbind, M_bind, set_user_step, deliver; simpl;
      by rewrite Hnet.
Qed.
End Unrecognized.

(** C7, as stated, fails: in the step "main_menu" the token "foo", which
    matches no known token or prefix, is answered and nothing is sent; the
    main menu is not rendered. *)
Lemma unrecognized_token_renders_nothing :
  recognized "foo" = false
  ∧ handle_event (loaded sheet) user (Selection (Some "foo")) (at_step main_menu)
    = (Ok (), World (user_states (at_step main_menu)) [Answer] []).
Proof. split; vm_compute; reflexivity. Qed.

Lemma unrecognized_input_in_resting_step_witness :
  s_step (session_of (at_step regular_menu) user) = Some regular_menu
  ∧ resting regular_menu = true
  ∧ network (at_step regular_menu) = []
  ∧ handle_event (loaded sheet) user (FreeText (Some "hello")) (at_step regular_menu)
    = (Ok (), World (with_step user main_menu (user_states (at_step regular_menu)))
                (outbox (at_step regular_menu)
                 ++ [Reply (main_menu_message (user_lang (at_step regular_menu) user))])
                []).
Proof.
  split; [reflexivity|]. split; [reflexivity|]. split; [reflexivity|].
  exact (unrecognized_input_in_resting_step (loaded sheet) user (FreeText (Some "hello"))
           (at_step regular_menu) regular_menu eq_refl eq_refl eq_refl).
Defined.

(** ** Search by cartridge name *)

Section CartridgeName.
Context `{PyText}.

(** More than one matched cartridge article: "no cartridges found", then
    the main menu, and no list to choose from. *)
Lemma cart_name_ambiguous (c : catalog) (user_id : Z) (l : lang) (text : string)
    (w : world) (a b : string) (rest : list string) :
  elements (matched_cart_art (normalize_name text) (all_rows c)) = a :: b :: rest →
  network w = [] →
  handle_text_try c user_id l text (Some await_cart_name) w
  = (Ok (), World (with_step user_id main_menu (user_states w))
              (outbox w ++ [Reply (text_of l "no_cartridges_found" None);
                            Reply (main_menu_message l)])
              []).
Proof.
  intros Hmatch Hnet. unfold handle_text_try. rewrite Hmatch.
  unfold mbind, M_bind, set_user_step, deliver. simpl. rewrite Hnet. simpl.
  unfold with_step, main_menu_message. by rewrite <-app_assoc.
Qed.

(** One matched cartridge article that the cartridge index knows: the
    handler goes on as the step "await_cart_article" does for a text
    whose first token is that article. *)
Lemma cart_name_single_as_article (c : catalog) (user_id : Z) (l : lang)
    (text text' : string) (w : world) (cart_art : string) :
  elements (matched_cart_art (normalize_name text) (all_rows c)) = [cart_art] →
  rows_of c cart_art (cartridges_by_article c) ≠ [] →
  head (py_split_ws text') = Some cart_art →
  handle_text_try c user_id l text (Some await_cart_name) w
  = handle_text_try c user_id l text' (Some await_cart_article) w.
Proof.
  intros Hmatch Hrows Htok. unfold handle_text_try. rewrite Hmatch, Htok.
  cbv beta iota delta [mbind M_bind lift_opt mret M_ret].
  by destruct (rows_of c cart_art (cartridges_by_article c)).
Qed.
End CartridgeName.

(** C6, at the failing input.  The only record has no system name, so the
    load skips it, yet the scan of [all_rows] matches its cartridge article
    "27555".  The step "await_cart_name" then offers a choice of systems
    with no system in it and moves to "await_choose_system_for_cart", while
    the step "await_cart_article" answers "no cartridges found" for the
    same article and returns to the main menu. *)
Lemma cart_name_single_match_without_rows :
  let c := loaded [nameless2] in
  let by_name := snd (handle_text c user (Some "ara") (at_step await_cart_name)) in
  let by_article := snd (handle_text c user (Some "27555") (at_step await_cart_article)) in
  elements (matched_cart_art (normalize_name "ara") (all_rows c)) = ["27555"]
  ∧ rows_of c "27555" (cartridges_by_article c) = []
  ∧ outbox by_name
    = [Reply (text_of LANG_EN "choose_system_for_cart" (Some [back_row LANG_EN]))]
  ∧ s_step (session_of by_name user) = Some await_choose_system_for_cart
  ∧ outbox by_article
    = [Reply (text_of LANG_EN "no_cartridges_found" None);
       Reply (main_menu_message LANG_EN)]
  ∧ s_step (session_of by_article user) = Some main_menu.
Proof. split_and!; vm_compute; reflexivity. Qed.

(** * Further properties *)

(** ** The article indexes *)

Section ArticleIndexes.
Context `{PyText}.

Lemma elem_of_filter_positions (rs : list row) (key : row → option string)
    (a : string) (i : nat) :
  i ∈ filter (λ j, rs !! j ≫= key = Some a) (seq 0 (length rs))
  ↔ ∃ r, rs !! i = Some r ∧ key r = Some a.
Proof.
  rewrite list_elem_of_filter, elem_of_seq. split.
  - intros [Hk _]. destruct (rs !! i) as [r|]; [|done]. by exists r.
  - intros (r & Hr & Hk). rewrite Hr. split; [done|].
    apply lookup_lt_Some in Hr. lia.
Qed.

(** X1.  After a successful load, looking up a key in the cartridge-article
    index returns exactly the positions, in increasing order, of the records
    that the load kept (system article and system name present), whose
    cartridge article is present and not the empty text, and normalizes to
    the key; the rows read through them are those records in their original
    order, as the load rewrote them. *)
Theorem lookup_by_cartridge_article_round_trip (rs : list row) (c : catalog) (a : string) :
  load_data_from_sheets rs = Some c →
  bucket_get a (cartridges_by_article c)
  = filter (λ i, rs !! i ≫= cart_key = Some a) (seq 0 (length rs))
  ∧ rows_of c a (cartridges_by_article c)
    = stored <$> filter (λ r, cart_key r = Some a) rs.
Proof.
  intros Hload. destruct (load_inv rs c Hload) as (_ & Hcart & Hrows).
  split; [apply Hcart|].
  unfold rows_of, rows_at. rewrite Hcart, Hrows.
  apply (omap_lookup_filter_seq cart_key a stored rs []).
Qed.

(** X2.  After a successful load, a position is in the bucket of an article
    exactly when the record at that position is filed under that article;
    so every bucket of the two article indexes refers to records of the
    sheet only, no position is in two buckets of the same index, and no
    bucket holds a position twice. *)
Theorem article_buckets_partition (rs : list row) (c : catalog) :
  load_data_from_sheets rs = Some c →
  (∀ a i, i ∈ bucket_get a (systems_by_article c)
          ↔ ∃ r, rs !! i = Some r ∧ sys_key r = Some a)
  ∧ (∀ a i, i ∈ bucket_get a (cartridges_by_article c)
          ↔ ∃ r, rs !! i = Some r ∧ cart_key r = Some a)
  ∧ (∀ a b i, i ∈ bucket_get a (systems_by_article c) →
              i ∈ bucket_get b (systems_by_article c) → a = b)
  ∧ (∀ a b i, i ∈ bucket_get a (cartridges_by_article c) →
              i ∈ bucket_get b (cartridges_by_article c) → a = b)
  ∧ (∀ a, NoDup (bucket_get a (systems_by_article c))
          ∧ NoDup (bucket_get a (cartridges_by_article c))).
Proof.
  intros Hload. destruct (load_inv rs c Hload) as (Hsys & Hcart & _).
  assert (Hs : ∀ a i, i ∈ bucket_get a (systems_by_article c)
                      ↔ ∃ r, rs !! i = Some r ∧ sys_key r = Some a)
    by (intros a i; rewrite Hsys; apply elem_of_filter_positions).
  assert (Hc : ∀ a i, i ∈ bucket_get a (cartridges_by_article c)
                      ↔ ∃ r, rs !! i = Some r ∧ cart_key r = Some a)
    by (intros a i; rewrite Hcart; apply elem_of_filter_positions).
  split_and!; [done | done | | |].
  - intros a b i (r & Hr & Ha)%Hs (r' & Hr' & Hb)%Hs. congruence.
  - intros a b i (r & Hr & Ha)%Hc (r' & Hr' & Hb)%Hc. congruence.
  - intros a. rewrite Hsys, Hcart. split; apply NoDup_filter, NoDup_seq.
Qed.

Lemma stored_sys_name (r : row) : r_sys_name (stored r) = r_sys_name r.
Proof. unfold stored. by repeat case_match. Qed.

Lemma stored_cart_name (r : row) : r_cart_name (stored r) = r_cart_name r.
Proof. unfold stored. by repeat case_match. Qed.

Lemma stored_url (r : row) : r_url (stored r) = r_url r.
Proof. unfold stored. by repeat case_match. Qed.

Lemma stored_sys_article (r : row) :
  article_of (r_sys_art (stored r)) = article_of (r_sys_art r).
Proof.
  unfold stored, article_of.
  destruct (r_sys_art r) as [v|] eqn:Hv; [|by rewrite Hv].
  destruct (r_sys_name r); [|by rewrite Hv].
  destruct (r_cart_art r) as [ca|]; [destruct (decide (ca = CStr ""))|]; simpl;
    by rewrite before_dot_idempotent.
Qed.

Lemma stored_cart_article (r : row) :
  article_of (r_cart_art (stored r)) = article_of (r_cart_art r).
Proof.
  unfold stored, article_of.
  destruct (r_sys_art r), (r_sys_name r); try done.
  destruct (r_cart_art r) as [ca|] eqn:Hca; [|simpl; by rewrite Hca].
  destruct (decide (ca = CStr "")); simpl; [by rewrite Hca|].
  by rewrite before_dot_idempotent.
Qed.

(** X3.  A successful load neither drops nor reorders the rows of
    [all_rows] and changes no system name, cartridge name or link; the
    article cells it rewrites still normalize to the same articles, so the
    articles that the handlers read from a loaded row are those of the
    record as it came from the sheet. *)
Theorem load_keeps_rows (rs : list row) (c : catalog) :
  load_data_from_sheets rs = Some c →
  length (all_rows c) = length rs
  ∧ ∀ i r, rs !! i = Some r →
      ∃ r', all_rows c !! i = Some r'
            ∧ r_sys_name r' = r_sys_name r
            ∧ r_cart_name r' = r_cart_name r
            ∧ r_url r' = r_url r
            ∧ article_of (r_sys_art r') = article_of (r_sys_art r)
            ∧ article_of (r_cart_art r') = article_of (r_cart_art r).
Proof.
  intros Hload. destruct (load_inv rs c Hload) as (_ & _ & Hrows).
  rewrite Hrows. split; [by rewrite length_fmap|].
  intros i r Hr. exists (stored r). rewrite list_lookup_fmap, Hr.
  split_and!; [done | | | | |].
  - apply stored_sys_name.
  - apply stored_cart_name.
  - apply stored_url.
  - apply stored_sys_article.
  - apply stored_cart_article.
Qed.
End ArticleIndexes.

Lemma lookup_by_cartridge_article_round_trip_witness :
  load_data_from_sheets sheet = Some (loaded sheet)
  ∧ rows_of (loaded sheet) "27008" (cartridges_by_article (loaded sheet))
    = stored <$> filter (λ r, cart_key r = Some "27008") sheet.
Proof.
  split; [vm_compute; reflexivity|].
  refine (proj2 (lookup_by_cartridge_article_round_trip sheet (loaded sheet) "27008" _)).
  vm_compute; reflexivity.
Defined.

Lemma article_buckets_partition_witness :
  load_data_from_sheets sheet = Some (loaded sheet)
  ∧ ∀ a, NoDup (bucket_get a (systems_by_article (loaded sheet)))
         ∧ NoDup (bucket_get a (cartridges_by_article (loaded sheet))).
Proof.
  split; [vm_compute; reflexivity|].
  refine (proj2 (proj2 (proj2 (proj2 (article_buckets_partition sheet (loaded sheet) _))))).
  vm_compute; reflexivity.
Defined.

Lemma load_keeps_rows_witness :
  load_data_from_sheets sheet = Some (loaded sheet)
  ∧ length (all_rows (loaded sheet)) = length sheet.
Proof.
  split; [vm_compute; reflexivity|].
  refine (proj1 (load_keeps_rows sheet (loaded sheet) _)).
  vm_compute; reflexivity.
Defined.

(** ** The name index *)

Section NameIndexFacts.
Context `{PyText}.

Lemma index_row_names (i : nat) (c c' : catalog) (r : row) :
  all_rows c !! i = Some r →
  index_row i c = Some c' →
  systems_by_name c' = register_row r (systems_by_name c).
Proof.
  intros Hr Hstep. unfold index_row in Hstep. rewrite Hr in Hstep.
  unfold register_row, sys_key, name_key.
  destruct (r_sys_art r) as [a|], (r_sys_name r) as [nm|]; simplify_eq/=; try done.
  destruct (normalize_name_cell nm) as [nn|]; simplify_eq/=.
  destruct (r_cart_art r) as [ca|]; [destruct (decide (ca = CStr ""))|];
    by simplify_eq/=.
Qed.

(** The name index after the loop has run over a range of fresh rows. *)
Lemma index_rows_names (rs : list row) : ∀ (m k : nat) (c c' : catalog),
  index_rows (seq k m) c = Some c' →
  (∀ j, (k ≤ j)%nat → all_rows c !! j = rs !! j) →
  (k + m ≤ length rs)%nat →
  systems_by_name c'
  = foldl (λ d r, register_row r d) (systems_by_name c) (take m (drop k rs)).
Proof.
  induction m as [|m IH]; intros k c c' Hrun Hfresh Hlen; simpl in Hrun.
  - by simplify_eq.
  - destruct (index_row k c) as [c1|] eqn:Hstep; simplify_eq/=.
    destruct (lookup_lt_is_Some_2 rs k ltac:(lia)) as [r Hr].
    assert (all_rows c !! k = Some r) as Hck by (by rewrite Hfresh).
    destruct (index_row_inv _ _ _ _ Hck Hstep) as (Hrows & _ & _).
    rewrite (drop_S _ _ _ Hr). simpl.
    rewrite <-(index_row_names _ _ _ _ Hck Hstep).
    apply IH; [done | | lia].
    intros j Hj. rewrite Hrows, list_lookup_insert_ne by lia. apply Hfresh. lia.
Qed.

Lemma load_names (rs : list row) (c : catalog) :
  load_data_from_sheets rs = Some c →
  systems_by_name c = foldl (λ d r, register_row r d) [] rs.
Proof.
  intros Hload. rewrite (index_rows_names rs _ _ _ _ Hload); [|done|simpl; lia].
  simpl. by rewrite drop_0, firstn_all.
Qed.

Lemma name_get_register (n k a : string) (d : list (string * list string)) :
  name_get n (name_register k a d)
  = if decide (n = k) then add_new (name_get n d) a else name_get n d.
Proof.
  induction d as [|[k' arts] d IH]; simpl.
  - by destruct (decide (n = k)).
  - destruct (decide (k = k')) as [->|Hk]; simpl.
    + destruct (decide (n = k')) as [->|Hn]; [|done].
      unfold add_new. by destruct (decide (a ∈ arts)).
    + destruct (decide (n = k')) as [->|Hn].
      * by rewrite decide_False by congruence.
      * apply IH.
Qed.

Lemma foldl_add_new_nil (l : list string) : foldl add_new [] l = dedup_first l.
Proof.
  rewrite foldl_add_new. simpl. f_equal.
  induction l as [|x l IH]; [done|].
  rewrite filter_cons_True by apply not_elem_of_nil. by rewrite IH.
Qed.

Lemma name_key_sys_key (r : row) (n : string) :
  name_key r = Some n → is_Some (sys_key r).
Proof.
  unfold name_key, sys_key. by destruct (r_sys_art r), (r_sys_name r).
Qed.

Lemma name_get_fold (n : string) (rs : list row) : ∀ d,
  n ≠ "" →
  name_get n (foldl (λ d r, register_row r d) d rs)
  = foldl add_new (name_get n d) (articles_named n rs).
Proof.
  induction rs as [|r rs IH]; intros d Hn; [done|]. simpl.
  rewrite IH by done. unfold register_row.
  destruct (name_key r) as [n'|] eqn:Hname.
  - destruct (name_key_sys_key r n' Hname) as [a Ha]. rewrite Ha.
    destruct (decide (Some n' = Some n)) as [Heq|Hne].
    + simplify_eq. rewrite decide_False by done.
      by rewrite name_get_register, decide_True.
    + destruct (decide (n' = "")); [done|].
      by rewrite name_get_register, decide_False by congruence.
  - destruct (decide (None = Some n)); [done|]. by destruct (sys_key r).
Qed.

(** The bucket of a name after a load. *)
Lemma load_name_get (rs : list row) (c : catalog) (n : string) :
  load_data_from_sheets rs = Some c →
  name_get n (systems_by_name c)
  = if decide (n = "") then [] else dedup_first (articles_named n rs).
Proof.
  intros Hload. destruct (decide (n = "")) as [->|Hn].
  - apply name_get_not_key. pose proof (load_names_ok rs c Hload) as Hok.
    unfold names_ok in Hok. rewrite Forall_forall in Hok.
    intros ([k arts] & Hk & Hin)%list_elem_of_fmap. simpl in Hk.
    destruct (Hok _ Hin) as [Hne _]. simpl in Hne. congruence.
  - rewrite (load_names rs c Hload), name_get_fold by done. simpl.
    apply foldl_add_new_nil.
Qed.

(** X4.  After a successful load, the bucket of a name in the name index
    holds the normalized system articles of the records whose system name
    normalizes (trimmed, upper-cased) to that name, each article once, in
    the order of first appearance in the sheet; the empty name has no
    bucket. *)
Theorem name_index_round_trip (rs : list row) (c : catalog) (n : string) :
  load_data_from_sheets rs = Some c →
  name_get n (systems_by_name c)
  = if decide (n = "") then [] else dedup_first (articles_named n rs).
Proof. apply load_name_get. Qed.

Lemma name_register_keys (k a : string) (d : list (string * list string)) :
  map fst (name_register k a d)
  = if decide (k ∈ map fst d) then map fst d else map fst d ++ [k].
Proof.
  induction d as [|[k' arts] d IH]; simpl.
  - done.
  - destruct (decide (k = k')) as [->|Hk]; simpl.
    + rewrite decide_True; [done|]. by left.
    + rewrite IH. destruct (decide (k ∈ map fst d)) as [Hin|Hout].
      * rewrite decide_True; [done|]. by right.
      * rewrite decide_False; [done|]. rewrite not_elem_of_cons. done.
Qed.

Lemma add_new_NoDup (acc : list string) (a : string) : NoDup acc → NoDup (add_new acc a).
Proof.
  intros Hacc. unfold add_new. destruct (decide (a ∈ acc)); [done|].
  apply NoDup_app. split_and!; [done | | apply NoDup_singleton].
  intros x Hx ->%list_elem_of_singleton. done.
Qed.

Lemma name_register_wf (k a : string) (d : list (string * list string)) :
  k ≠ "" → names_wf d → names_wf (name_register k a d).
Proof.
  intros Hk [Hkeys Hall]. split.
  - rewrite name_register_keys. destruct (decide (k ∈ map fst d)); [done|].
    apply NoDup_app. split_and!; [done | | apply NoDup_singleton].
    intros x Hx ->%list_elem_of_singleton. done.
  - clear Hkeys. induction Hall as [|[k' arts] d (Hk' & Hne & Hnd) Hd IH]; simpl.
    + constructor; [|constructor]. simpl.
      split_and!; [done | done | apply NoDup_singleton].
    + destruct (decide (k = k')) as [->|Hkk].
      * constructor; [|done]. simpl. split_and!; [done | |].
        -- destruct (decide (a ∈ arts)); [done|]. by destruct arts.
        -- by apply (add_new_NoDup arts a).
      * constructor; [done|]. apply IH.
Qed.

Lemma register_row_wf (r : row) (d : list (string * list string)) :
  names_wf d → names_wf (register_row r d).
Proof.
  intros Hd. unfold register_row.
  destruct (sys_key r) as [a|]; [|done]. destruct (name_key r) as [n|]; [|done].
  destruct (decide (n = "")); [done|]. by apply name_register_wf.
Qed.

Lemma register_rows_wf (rs : list row) : ∀ d,
  names_wf d → names_wf (foldl (λ d r, register_row r d) d rs).
Proof.
  induction rs as [|r rs IH]; intros d Hd; [done|]. simpl.
  apply IH. by apply register_row_wf.
Qed.

(** X5.  After a successful load, the keys of the name index are distinct
    and none is the empty name; every bucket holds at least one article and
    no article twice. *)
Theorem name_index_well_formed (rs : list row) (c : catalog) :
  load_data_from_sheets rs = Some c → names_wf (systems_by_name c).
Proof.
  intros Hload. rewrite (load_names rs c Hload).
  apply register_rows_wf. split; constructor.
Qed.
End NameIndexFacts.

Lemma name_index_round_trip_witness :
  load_data_from_sheets sheet = Some (loaded sheet)
  ∧ name_get "GEYSER-PRESTIGE" (systems_by_name (loaded sheet)) = ["20001"; "20002"].
Proof.
  split; [vm_compute; reflexivity|].
  rewrite (name_index_round_trip sheet (loaded sheet) "GEYSER-PRESTIGE");
    vm_compute; reflexivity.
Defined.

Lemma name_index_well_formed_witness :
  load_data_from_sheets sheet = Some (loaded sheet)
  ∧ names_wf (systems_by_name (loaded sheet)).
Proof.
  split; [vm_compute; reflexivity|].
  apply (name_index_well_formed sheet). vm_compute; reflexivity.
Defined.

(** ** When the load raises *)

Section LoadFaults.
Context `{PyText}.

Lemma normalize_name_cell_None (nm : cell) :
  normalize_name_cell nm = None
  ↔ py_truthy nm = true ∧ ∀ s, nm ≠ CStr s.
Proof.
  unfold normalize_name_cell. destruct (py_truthy nm) eqn:Ht.
  - destruct nm as [s|z|f]; split; try done.
    + intros [_ Hs]. by destruct (Hs s).
  - split; [done|]. by intros [? _].
Qed.

(** An iteration raises exactly on a row with a numeric name. *)
Lemma index_row_None (i : nat) (c : catalog) (r : row) :
  all_rows c !! i = Some r →
  index_row i c = None ↔ has_numeric_name r = true.
Proof.
  intros Hr. unfold index_row, has_numeric_name. rewrite Hr.
  destruct (r_sys_art r) as [a|], (r_sys_name r) as [nm|]; try done.
  destruct (normalize_name_cell nm) as [nn|] eqn:Hnn; simpl.
  - assert (Hno : ¬ (py_truthy nm = true ∧ ∀ s, nm ≠ CStr s))
      by (rewrite <-normalize_name_cell_None; congruence).
    split.
    + destruct (r_cart_art r) as [ca|]; [destruct (decide (ca = CStr ""))|]; done.
    + intros Hnum. exfalso. apply Hno. destruct nm; try done.
  - apply normalize_name_cell_None in Hnn as [Ht Hs]. split; [|done].
    intros _. destruct nm as [s| |]; try done. by destruct (Hs s).
Qed.

Lemma index_rows_None (rs : list row) : ∀ (m k : nat) (c : catalog),
  (∀ j, (k ≤ j)%nat → all_rows c !! j = rs !! j) →
  (k + m ≤ length rs)%nat →
  index_rows (seq k m) c = None
  ↔ ∃ r, r ∈ take m (drop k rs) ∧ has_numeric_name r = true.
Proof.
  induction m as [|m IH]; intros k c Hfresh Hlen; simpl.
  - split; [done|]. by intros (r & ?%elem_of_nil & _).
  - destruct (lookup_lt_is_Some_2 rs k ltac:(lia)) as [r Hr].
    assert (all_rows c !! k = Some r) as Hck by (by rewrite Hfresh).
    rewrite (drop_S _ _ _ Hr). simpl.
    destruct (index_row k c) as [c1|] eqn:Hstep; simpl.
    + destruct (index_row_inv _ _ _ _ Hck Hstep) as (Hrows & _ & _).
      rewrite (IH (S k) c1); [| |lia].
      * assert (Hr0 : has_numeric_name r ≠ true).
        { intros Hnum. apply (index_row_None _ _ _ Hck) in Hnum. congruence. }
        split.
        -- intros (r' & Hin & Hnum). exists r'. split; [by right | done].
        -- intros (r' & Hin & Hnum). apply elem_of_cons in Hin as [->|Hin]; [done|].
           by exists r'.
      * intros j Hj. rewrite Hrows, list_lookup_insert_ne by lia. apply Hfresh. lia.
    + split; [|done]. intros _. exists r. split; [by left|].
      by apply (index_row_None _ _ _ Hck).
Qed.

(** The load raises exactly on a sheet with a numeric name. *)
Lemma load_None_iff (rs : list row) :
  load_data_from_sheets rs = None
  ↔ ∃ r, r ∈ rs ∧ has_numeric_name r = true.
Proof.
  unfold load_data_from_sheets.
  rewrite (index_rows_None rs (length rs) 0); [|done|simpl; lia].
  by rewrite drop_0, firstn_all.
Qed.

(** X6.  The load raises exactly when some record of the sheet has a
    system article and a system name that is a number other than zero:
    [normalize_name] calls [strip] on it.  Records without a system
    article or name, text names, and the numbers 0 and 0.0 never make the
    load raise. *)
Theorem load_raises_iff (rs : list row) :
  load_data_from_sheets rs = None
  ↔ ∃ r, r ∈ rs ∧ has_numeric_name r = true.
Proof. apply load_None_iff. Qed.



End LoadFaults.


(** ** The lists a handler computes *)

Section HandlerLists.
Context `{PyText}.

Lemma sys_articles_eq (rows : list row) :
  sys_articles rows
  = dedup_first (filter (λ a, a ≠ "") (map (λ r, article_of (r_sys_art r)) rows)).
Proof.
  unfold sys_articles. rewrite <-foldl_add_new_nil.
  generalize (@nil string). induction rows as [|r rows IH]; intros acc; [done|].
  simpl. fold (article_of (r_sys_art r)). rewrite filter_cons.
  destruct (decide (article_of (r_sys_art r) = "")) as [He|Hne].
  - rewrite decide_False by tauto. apply IH.
  - rewrite decide_True by done. simpl. apply IH.
Qed.

(** X8.  The list [sys_articles] of the cartridge steps holds the
    normalized system articles of the rows, without the empty article,
    each once, in the order of first appearance. *)
Theorem sys_articles_dedup (rows : list row) :
  sys_articles rows
  = dedup_first (filter (λ a, a ≠ "") (map (λ r, article_of (r_sys_art r)) rows))
  ∧ NoDup (sys_articles rows)
  ∧ ∀ a, a ∈ sys_articles rows
         ↔ a ≠ "" ∧ ∃ r, r ∈ rows ∧ article_of (r_sys_art r) = a.
Proof.
  pose proof (sys_articles_eq rows) as Heq.
  split_and!; [done | rewrite Heq; apply dedup_first_NoDup |].
  intros a. rewrite Heq, dedup_first_elem_of, list_elem_of_filter, list_elem_of_In, in_map_iff.
  split.
  - intros [Hne (r & Hr & Hin)]. split; [done|]. exists r. by rewrite list_elem_of_In.
  - intros [Hne (r & Hin & Hr)]. split; [done|]. exists r. by rewrite <-list_elem_of_In.
Qed.

(** X9.  The set [matched_cart_art] of the step "await_cart_name" holds
    exactly the non-empty normalized cartridge articles of the rows whose
    normalized cartridge name contains the normalized query; rows without a
    cartridge article contribute nothing. *)
Theorem matched_cart_art_spec (q : string) (rows : list row) (a : string) :
  a ∈ matched_cart_art q rows
  ↔ a ≠ ""
    ∧ ∃ r, r ∈ rows
           ∧ article_of (r_cart_art r) = a
           ∧ py_in q (normalize_name (py_str (get_or_empty (r_cart_name r)))) = true.
Proof.
  unfold matched_cart_art.
  enough (Hgen : ∀ acc : gset string,
             a ∈ foldl (λ acc r,
                          let name := normalize_name (py_str (get_or_empty (r_cart_name r))) in
                          let cart_art := before_dot (py_str (get_or_empty (r_cart_art r))) in
                          if decide (cart_art = "") then acc
                          else if py_in q name then acc ∪ {[cart_art]} else acc)
                        acc rows
             ↔ a ∈ acc
               ∨ (a ≠ "" ∧ ∃ r, r ∈ rows ∧ article_of (r_cart_art r) = a
                  ∧ py_in q (normalize_name (py_str (get_or_empty (r_cart_name r)))) = true)).
  { rewrite Hgen. split; [intros [?%not_elem_of_empty|?]; done | by right]. }
  induction rows as [|r rows IH]; intros acc; simpl.
  - split; [by left|]. intros [?|(_ & r & ?%elem_of_nil & _)]; done.
  - rewrite IH. fold (article_of (r_cart_art r)).
    destruct (decide (article_of (r_cart_art r) = "")) as [He|Hne].
    + split; intros [Hacc|(Hne & r' & Hin & Ha & Hq)]; try (by left).
      * right. split; [done|]. exists r'. split; [by right | done].
      * apply elem_of_cons in Hin as [->|Hin]; [congruence|].
        right. split; [done|]. by exists r'.
    + destruct (py_in q (normalize_name (py_str (get_or_empty (r_cart_name r))))) eqn:Hq.
      * rewrite elem_of_union, elem_of_singleton.
        split; intros [Hacc|(Hne' & r' & Hin & Ha & Hq')].
        -- destruct Hacc as [Hacc| ->]; [by left|].
           right. split; [done|]. exists r. split; [by left | done].
        -- right. split; [done|]. exists r'. split; [by right | done].
        -- by left; left.
        -- apply elem_of_cons in Hin as [->|Hin]; [left; by right|].
           right. split; [done|]. by exists r'.
      * split; intros [Hacc|(Hne' & r' & Hin & Ha & Hq')]; try (by left).
        -- right. split; [done|]. exists r'. split; [by right | done].
        -- apply elem_of_cons in Hin as [->|Hin]; [congruence|].
           right. split; [done|]. by exists r'.
Qed.

Lemma filter_item_lines (l : lang) (rows : list row) :
  filter (λ ln, is_item_line ln) (map (item_line l) rows) = map (item_line l) rows.
Proof.
  induction rows as [|r rows IH]; [done|]. simpl.
  rewrite filter_cons_True by done. by rewrite IH.
Qed.

(** X10.  The text of [send_system_info] starts with the header line, with
    the name of the first row and the article asked for, and a blank line;
    its cartridge lines show every row exactly once, the kits first and the
    single cartridges after them, each group in the order of the rows; the
    notice "no_kits" is shown exactly when no row is a kit. *)
Theorem system_info_lines_items (l : lang) (sys_article : string) (rows : list row) :
  ∃ rest,
    system_info_lines l sys_article rows
    = Fmt l "system_header" [get_system_name_from_rows rows; sys_article] :: Blank :: rest
    ∧ filter (λ ln, is_item_line ln) rest
      = map (item_line l) (filter (λ r, is_kit r) rows ++ filter (λ r, ¬ is_kit r) rows)
    ∧ filter (λ ln, is_item_line ln) rest ≡ₚ map (item_line l) rows
    ∧ (Tx l "no_kits" ∈ rest ↔ filter (λ r, is_kit r) rows = []).
Proof.
  unfold system_info_lines. rewrite split_kits_and_items_filter.
  set (kits := filter (λ r, is_kit r) rows).
  set (singles := filter (λ r, ¬ is_kit r) rows).
  assert (Hperm : map (item_line l) (kits ++ singles) ≡ₚ map (item_line l) rows).
  { apply fmap_Permutation, filter_app_complement. }
  assert (Hkit_lines : ∀ rs', Tx l "no_kits" ∉ map (item_line l) rs').
  { intros rs' Hin. rewrite list_elem_of_In, in_map_iff in Hin.
    by destruct Hin as (r & Hr & _). }
  eexists. split; [reflexivity|].
  destruct kits as [|k kits'] eqn:Hk.
  - assert (Hitems : filter (λ ln, is_item_line ln)
                       ([Tx l "no_kits"] ++ map (item_line l) singles)
                     = map (item_line l) ([] ++ singles))
      by (by rewrite filter_app, filter_item_lines).
    split_and!; [done | by rewrite Hitems |].
    split; [done|]. intros _. by left.
  - assert (Hitems : filter (λ ln, is_item_line ln)
                       ([Tx l "kits_header"] ++ map (item_line l) (k :: kits') ++ [Blank] ++
                        match singles with
                        | [] => []
                        | _ :: _ => [Tx l "items_header"] ++ map (item_line l) singles
                        end)
                     = map (item_line l) ((k :: kits') ++ singles)).
    { rewrite !filter_app, filter_item_lines, map_app. simpl.
      destruct singles as [|s singles']; simpl; [done|].
      rewrite filter_cons_False by (simpl; tauto).
      change (item_line l s :: map (item_line l) singles')
        with (map (item_line l) (s :: singles')).
      by rewrite filter_item_lines. }
    split_and!; [done | by rewrite Hitems | ].
    split; [|done]. intros Hin. exfalso.
    rewrite !elem_of_app in Hin.
    destruct Hin as [Hin|[Hin|[Hin|Hin]]].
    + by apply list_elem_of_singleton in Hin.
    + by apply Hkit_lines in Hin.
    + by apply list_elem_of_singleton in Hin.
    + destruct singles as [|s singles']; [by apply elem_of_nil in Hin|].
      apply elem_of_app in Hin as [Hin|Hin].
      * by apply list_elem_of_singleton in Hin.
      * by apply Hkit_lines in Hin.
Qed.
End HandlerLists.

(** ** Buttons *)

Lemma prefix_empty (s : string) : String.prefix "" s = true.
Proof. by destruct s. Qed.

Lemma split_on_zero (sep : ascii) (cur s : string) : split_on sep 0 cur s = [cur +:+ s].
Proof. destruct s; simpl; [by rewrite append_empty_r | done]. Qed.

(** A piece without the separator is split off whole. *)
Lemma split_on_piece (sep : ascii) (a rest : string) : ∀ (n : nat) (cur : string),
  py_in (String sep "") a = false →
  split_on sep (S n) cur (a +:+ String sep rest) = (cur +:+ a) :: split_on sep n "" rest.
Proof.
  induction a as [|ch a IH]; intros n cur Hsep.
  - change ("" +:+ String sep rest) with (String sep rest). simpl.
    by rewrite Ascii.eqb_refl, append_empty_r.
  - rewrite py_in_single in Hsep. apply orb_false_elim in Hsep as [Hch Ha].
    rewrite append_cons. simpl. rewrite Ascii.eqb_sym, Hch.
    rewrite (IH n _ Ha). by rewrite append_assoc.
Qed.

Section Buttons.
Context `{PyText}.

(** X11.  A selection token "lang_<code>", from any step and with
    deliveries succeeding, always leads to the step "main_menu" and to one
    edit of the message into the main menu.  With one of the four known
    codes the session takes that language and the menu is in it; with any
    other code the language of the session is kept and the menu is in the
    language the session already had. *)
Theorem language_selection (c : catalog) (user_id : Z) (code : string) (w : world) :
  network w = [] →
  handle_callback c user_id (Some ("lang_" +:+ code)) w
  = (Ok (),
     World match lang_of_code code with
           | Some l => <[user_id := Session (Some l) (Some main_menu)]> (user_states w)
           | None => with_step user_id main_menu (user_states w)
           end
           (outbox w ++ [Answer;
                         Edit (main_menu_message
                                 (default (user_lang w user_id) (lang_of_code code)))])
           []).
Proof.
  intros Hnet.
  assert (Hsplit : py_splitn "_" 1 ("lang_" +:+ code) !! 1%nat = Some code).
  { unfold py_splitn. change ("lang_" +:+ code) with ("lang" +:+ String "_" code).
    by rewrite split_on_piece, split_on_zero. }
  assert (Hpre : String.prefix "lang_" ("lang_" +:+ code) = true).
  { change (String.prefix "lang_" ("lang_" +:+ code)) with (String.prefix "" code).
    apply prefix_empty. }
  unfold handle_callback, mbind at 1, M_bind at 1.
  rewrite deliver_ok by (by rewrite Hnet).
  unfold mbind at 1, M_bind at 1, get_user_lang. cbn [user_states].
  fold (session_of w user_id). fold (user_lang w user_id).
  unfold try_except, handle_callback_try.
  unfold mbind at 1, M_bind at 1, lift_opt at 1, mret, M_ret. rewrite Hpre.
  unfold mbind at 1, M_bind at 1. rewrite Hsplit. unfold lift_opt, mret, M_ret.
  destruct (lang_of_code code) as [l|];
    unfold mbind, M_bind, set_user_lang, set_user_step, deliver, mret, M_ret;
    cbn [user_states outbox network]; rewrite Hnet; cbn [tail].
  - rewrite lookup_insert_eq, insert_insert_eq. simpl. by rewrite <-app_assoc.
  - simpl. unfold with_step. by rewrite <-app_assoc.
Qed.

(** The run of the branches "sys_" and "sysfromcart_" once the token is
    taken apart. *)
Lemma show_system_run (c : catalog) (user_id : Z) (l : lang) (a : string) (w : world) :
  network w = [] →
  (send_system_info l a (rows_of c a (systems_by_article c));;
   set_user_step user_id main_menu;;
   deliver (Send (text_of l "main_menu" (Some (main_menu_keyboard l))))) w
  = (Ok (),
     World (with_step user_id main_menu (user_states w))
           (outbox w ++ [Send (system_info_message l a (rows_of c a (systems_by_article c)));
                         Send (main_menu_message l)])
           []).
Proof.
  intros Hnet.
  unfold mbind, M_bind, send_system_info, set_user_step, deliver.
  cbn [user_states outbox network]. rewrite Hnet. cbn [user_states outbox network].
  unfold with_step, system_info_message, main_menu_message. by rewrite <-app_assoc.
Qed.

(** X12.  The token "sys_<article>" of a button of the step
    "await_sys_name" is taken apart at its first underscore only, so for
    every article, also one with underscores in it, pressing the button
    sends the system info of exactly that article, then the main menu, and
    sets the step "main_menu". *)
Theorem sys_button_round_trip (c : catalog) (user_id : Z) (a : string) (w : world) :
  network w = [] →
  handle_callback c user_id (Some ("sys_" +:+ a)) w
  = (Ok (),
     World (with_step user_id main_menu (user_states w))
           (outbox w
            ++ [Answer;
                Send (system_info_message (user_lang w user_id) a
                        (rows_of c a (systems_by_article c)));
                Send (main_menu_message (user_lang w user_id))])
           []).
Proof.
  intros Hnet.
  assert (Hsplit : py_splitn "_" 1 ("sys_" +:+ a) = ["sys"; a]).
  { unfold py_splitn. change ("sys_" +:+ a) with ("sys" +:+ String "_" a).
    by rewrite split_on_piece, split_on_zero. }
  assert (Hpre : String.prefix "sys_" ("sys_" +:+ a) = true).
  { change (String.prefix "sys_" ("sys_" +:+ a)) with (String.prefix "" a).
    apply prefix_empty. }
  unfold handle_callback, mbind at 1, M_bind at 1.
  rewrite deliver_ok by (by rewrite Hnet).
  unfold mbind at 1, M_bind at 1, get_user_lang. cbn [user_states].
  fold (session_of w user_id). fold (user_lang w user_id).
  unfold try_except, handle_callback_try.
  unfold mbind at 1, M_bind at 1, lift_opt at 1, mret, M_ret.
  rewrite Hpre, Hsplit.
  change (String.prefix "lang_" ("sys_" +:+ a)) with false. cbv iota.
  rewrite !decide_False by (intros Heq; discriminate Heq).
  rewrite show_system_run by (by rewrite Hnet).
  cbn [user_states outbox network]. by rewrite <-app_assoc.
Qed.

(** X13.  The token "sysfromcart_<system>_<cartridge>" of a button of the
    cartridge steps is taken apart at its first two underscores.  When the
    system article holds no underscore, pressing the button sends the
    system info of that article, then the main menu, and sets the step
    "main_menu"; the cartridge part plays no role. *)
Theorem sysfromcart_button_round_trip
    (c : catalog) (user_id : Z) (a cart_art : string) (w : world) :
  py_in "_" a = false →
  network w = [] →
  handle_callback c user_id (Some ("sysfromcart_" +:+ a +:+ "_" +:+ cart_art)) w
  = (Ok (),
     World (with_step user_id main_menu (user_states w))
           (outbox w
            ++ [Answer;
                Send (system_info_message (user_lang w user_id) a
                        (rows_of c a (systems_by_article c)));
                Send (main_menu_message (user_lang w user_id))])
           []).
Proof.
  intros Hund Hnet.
  assert (Hsplit : py_splitn "_" 2 ("sysfromcart_" +:+ a +:+ "_" +:+ cart_art)
                   = ["sysfromcart"; a; cart_art]).
  { unfold py_splitn.
    change ("sysfromcart_" +:+ a +:+ "_" +:+ cart_art)
      with ("sysfromcart" +:+ String "_" (a +:+ String "_" cart_art)).
    by rewrite !split_on_piece, split_on_zero. }
  assert (Hpre : String.prefix "sysfromcart_" ("sysfromcart_" +:+ a +:+ "_" +:+ cart_art)
                 = true).
  { change (String.prefix "sysfromcart_" ("sysfromcart_" +:+ a +:+ "_" +:+ cart_art))
      with (String.prefix "" (a +:+ "_" +:+ cart_art)).
    apply prefix_empty. }
  unfold handle_callback, mbind at 1, M_bind at 1.
  rewrite deliver_ok by (by rewrite Hnet).
  unfold mbind at 1, M_bind at 1, get_user_lang. cbn [user_states].
  fold (session_of w user_id). fold (user_lang w user_id).
  unfold try_except, handle_callback_try.
  unfold mbind at 1, M_bind at 1, lift_opt at 1, mret, M_ret.
  rewrite Hpre, Hsplit.
  change (String.prefix "lang_" ("sysfromcart_" +:+ a +:+ "_" +:+ cart_art)) with false.
  change (String.prefix "sys_" ("sysfromcart_" +:+ a +:+ "_" +:+ cart_art)) with false.
  cbv iota.
  rewrite !decide_False by (intros Heq; discriminate Heq).
  rewrite show_system_run by (by rewrite Hnet).
  cbn [user_states outbox network]. by rewrite <-app_assoc.
Qed.
End Buttons.

Lemma language_selection_witness :
  network (at_step choose_language) = []
  ∧ s_lang (session_of (snd (handle_callback (loaded sheet) user (Some ("lang_" +:+ "kk"))
                               (at_step choose_language))) user)
    = Some LANG_KK.
Proof.
  split; [reflexivity|].
  rewrite (language_selection (loaded sheet) user "kk" (at_step choose_language) eq_refl).
  vm_compute; reflexivity.
Defined.

Lemma sys_button_round_trip_witness :
  network (at_step await_choose_system_for_name) = []
  ∧ s_step (session_of (snd (handle_callback (loaded [underscored]) user
                               (Some ("sys_" +:+ "20_07"))
                               (at_step await_choose_system_for_name))) user)
    = Some main_menu.
Proof.
  split; [reflexivity|].
  rewrite (sys_button_round_trip (loaded [underscored]) user "20_07"
             (at_step await_choose_system_for_name) eq_refl).
  vm_compute; reflexivity.
Defined.

Lemma sysfromcart_button_round_trip_witness :
  py_in "_" "20003" = false
  ∧ network (at_step await_choose_system_for_cart) = []
  ∧ s_step (session_of (snd (handle_callback (loaded sheet) user
                               (Some ("sysfromcart_" +:+ "20003" +:+ "_" +:+ "27008"))
                               (at_step await_choose_system_for_cart))) user)
    = Some main_menu.
Proof.
  split; [reflexivity|]. split; [reflexivity|].
  rewrite (sysfromcart_button_round_trip (loaded sheet) user "20003" "27008"
             (at_step await_choose_system_for_cart) eq_refl eq_refl).
  vm_compute; reflexivity.
Defined.

(** ** Sessions *)

(** Close a goal on the session table that a finished run left. *)
Ltac close_session :=
  unfold session_of; cbn [user_states outbox network];
  rewrite ?lookup_insert_ne by done; rewrite ?lookup_insert_eq; done.

Section Sessions.
Context `{PyText}.

Lemma deliver_user_states (o : call) (w : world) :
  user_states (snd (deliver o w)) = user_states w.
Proof. unfold deliver. by destruct (network w) as [|[] rest]. Qed.

Lemma text_try_other_users (c : catalog) (user_id other : Z) (l : lang) (text : string)
    (st : option step) (w w1 : world) (res : result unit) :
  other ≠ user_id →
  handle_text_try c user_id l text st w = (res, w1) →
  user_states w1 !! other = user_states w !! other.
Proof.
  intros Hother Htry. unfold handle_text_try in Htry.
  destruct st as [[]|]; run_in Htry.
  all: repeat (case_match; run_in Htry); simplify_eq; close_session.
Qed.

Lemma callback_try_other_users (c : catalog) (user_id other : Z) (l : lang)
    (query_data : option string) (w w1 : world) (res : result unit) :
  other ≠ user_id →
  handle_callback_try c user_id l query_data w = (res, w1) →
  user_states w1 !! other = user_states w !! other.
Proof.
  intros Hother Htry. unfold handle_callback_try in Htry.
  destruct query_data as [data|]; run_in Htry; [|by simplify_eq].
  repeat (case_match; run_in Htry); simplify_eq; close_session.
Qed.

Lemma text_try_language (c : catalog) (user_id : Z) (l : lang) (text : string)
    (st : option step) (w w1 : world) (res : result unit) :
  handle_text_try c user_id l text st w = (res, w1) →
  s_lang (session_of w1 user_id) = s_lang (session_of w user_id).
Proof.
  intros Htry. unfold handle_text_try in Htry.
  destruct st as [[]|]; run_in Htry.
  all: repeat (case_match; run_in Htry); simplify_eq; close_session.
Qed.

Lemma callback_try_language (c : catalog) (user_id : Z) (l : lang)
    (query_data : option string) (w w1 : world) (res : result unit) :
  is_language_token (Selection query_data) = false →
  handle_callback_try c user_id l query_data w = (res, w1) →
  s_lang (session_of w1 user_id) = s_lang (session_of w user_id).
Proof.
  intros Htok Htry. unfold handle_callback_try in Htry.
  destruct query_data as [data|]; run_in Htry; [|by simplify_eq].
  simpl in Htok. rewrite Htok in Htry.
  repeat (case_match; run_in Htry); simplify_eq; close_session.
Qed.

(** The run of a handler, whether or not it reaches its [try] block, in
    terms of the run of that block. *)
Lemma handle_event_cases (c : catalog) (user_id : Z) (ev : event) (w : world) :
  (reaches_try ev w
   ∧ ∃ res w1, try_block c user_id ev w = (res, w1)
       ∧ user_states (snd (handle_event c user_id ev w)) = user_states w1)
  ∨ (¬ reaches_try ev w
     ∧ user_states (snd (handle_event c user_id ev w)) = user_states w).
Proof.
  assert (Hdec : reaches_try ev w ∨ ¬ reaches_try ev w).
  { destruct ev; simpl; [|by left]. destruct (hd true (network w)); [by left | by right]. }
  destruct Hdec as [Hreach|Hno]; [left | right].
  - split; [done|]. rewrite (handle_event_try_block c user_id ev w Hreach).
    destruct (try_block c user_id ev w) as [[[]|] w1] eqn:Htry.
    + by exists (Ok ()), w1.
    + exists Raised, w1. split; [done|]. apply deliver_user_states.
  - split; [done|]. destruct ev as [query_data | message_text]; simpl in Hno; [|done].
    simpl. unfold handle_callback, mbind at 1, M_bind at 1.
    rewrite deliver_fail; [done|]. by destruct (hd true (network w)).
Qed.

(** X14.  Handling an event of one user never touches the session of
    another user, whatever the event, the catalog and the outcome of the
    deliveries. *)
Theorem other_sessions_untouched
    (c : catalog) (user_id other : Z) (ev : event) (w : world) :
  other ≠ user_id →
  user_states (snd (handle_event c user_id ev w)) !! other = user_states w !! other.
Proof.
  intros Hother.
  destruct (handle_event_cases c user_id ev w)
    as [(_ & res & w1 & Htry & ->) | (_ & ->)]; [|done].
  destruct ev as [query_data | message_text]; simpl in Htry.
  - by rewrite (callback_try_other_users _ _ _ _ _ _ _ _ Hother Htry).
  - by rewrite (text_try_other_users _ _ _ _ _ _ _ _ _ Hother Htry).
Qed.

(** X15.  Only a selection token that starts with "lang_" can change the
    language of a session: after any text message, and after any other
    selection, the language stored for the user is what it was, also when
    a delivery fails. *)
Theorem language_changes_only_by_token
    (c : catalog) (user_id : Z) (ev : event) (w : world) :
  is_language_token ev = false →
  s_lang (session_of (snd (handle_event c user_id ev w)) user_id)
  = s_lang (session_of w user_id).
Proof.
  intros Htok. unfold session_of at 1.
  destruct (handle_event_cases c user_id ev w)
    as [(_ & res & w1 & Htry & ->) | (_ & ->)]; [|done].
  fold (session_of w1 user_id).
  destruct ev as [query_data | message_text]; simpl in Htry.
  - rewrite (callback_try_language _ _ _ _ _ _ _ Htok Htry). done.
  - by rewrite (text_try_language _ _ _ _ _ _ _ _ Htry).
Qed.

(** X16.  [start] puts the session of the user in the step
    "choose_language" with the default language, whatever language and
    step it had, and does so before the welcome text is sent: when that
    delivery raises, nothing catches the fault and the session is reset all
    the same.  Other sessions are untouched. *)
Theorem start_resets_session (user_id : Z) (w : world) :
  let w' := snd (start user_id w) in
  session_of w' user_id = Session (Some DEFAULT_LANG) (Some choose_language)
  ∧ (∀ other, other ≠ user_id → user_states w' !! other = user_states w !! other)
  ∧ fst (start user_id w) = (if hd true (network w) then Ok () else Raised)
  ∧ outbox w'
    = (if hd true (network w)
       then outbox w ++ [Reply (text_of DEFAULT_LANG "welcome" (Some lang_keyboard))]
       else outbox w).
Proof.
  unfold start, mbind, M_bind, set_user_step, set_user_lang, deliver.
  cbn [user_states outbox network].
  destruct (network w) as [|[] rest]; cbn [fst snd hd];
    (split_and!; [close_session | intros other Hother; close_session | done | done]).
Qed.
End Sessions.

Lemma other_sessions_untouched_witness :
  (7 : Z) ≠ user
  ∧ user_states (snd (handle_event (loaded sheet) user (FreeText (Some "20001"))
                        (at_step await_pro_article))) !! (7 : Z)
    = user_states (at_step await_pro_article) !! (7 : Z).
Proof.
  assert (Hne : (7 : Z) ≠ user) by (intros Heq; discriminate Heq).
  split; [exact Hne|].
  exact (other_sessions_untouched (loaded sheet) user 7 (FreeText (Some "20001"))
           (at_step await_pro_article) Hne).
Defined.

Lemma language_changes_only_by_token_witness :
  is_language_token (Selection (Some "menu_pro")) = false
  ∧ s_lang (session_of (snd (handle_event (loaded sheet) user (Selection (Some "menu_pro"))
                               (at_step main_menu))) user)
    = s_lang (session_of (at_step main_menu) user).
Proof.
  split; [reflexivity|].
  exact (language_changes_only_by_token (loaded sheet) user (Selection (Some "menu_pro"))
           (at_step main_menu) eq_refl).
Defined.

(** ** The dialogue, from the records of the sheet *)

Section Dialogue.
Context `{PyText}.

(** The rows read under a key of the system index of a loaded catalog. *)
Lemma system_rows (rs : list row) (c : catalog) (key : string) :
  load_data_from_sheets rs = Some c →
  rows_of c key (systems_by_article c)
  = stored <$> filter (λ r, sys_key r = Some key) rs.
Proof.
  intros Hload. destruct (load_inv rs c Hload) as (Hsys & _ & Hrows).
  unfold rows_of, rows_at. rewrite Hsys, Hrows.
  apply (omap_lookup_filter_seq sys_key key stored rs []).
Qed.

(** The start of [handle_text]: the language and the step are read and
    the [try] block runs. *)
Lemma handle_text_start (c : catalog) (user_id : Z) (text : string) (w : world) :
  handle_text c user_id (Some text) w
  = try_except
      (handle_text_try c user_id (user_lang w user_id) (py_strip text)
         (s_step (session_of w user_id)))
      (deliver (Reply (error_message (user_lang w user_id)))) w.
Proof. reflexivity. Qed.

(** X17.  In the step "await_pro_article", with deliveries succeeding, the
    first whitespace-delimited token of the text is looked up as it is:
    when no record of the sheet is filed under it the user gets "no systems
    found", otherwise the system info built from exactly the records filed
    under it, in sheet order; in both cases the main menu follows and the
    step becomes "main_menu". *)
Theorem pro_article_answer
    (rs : list row) (c : catalog) (user_id : Z) (text token : string) (w : world) :
  load_data_from_sheets rs = Some c →
  s_step (session_of w user_id) = Some await_pro_article →
  head (py_split_ws (py_strip text)) = Some token →
  network w = [] →
  let l := user_lang w user_id in
  let found := filter (λ r, sys_key r = Some token) rs in
  handle_text c user_id (Some text) w
  = (Ok (),
     World (with_step user_id main_menu (user_states w))
           (outbox w
            ++ [match found with
                | [] => Reply (text_of l "no_systems_found" None)
                | _ => Send (system_info_message l token (stored <$> found))
                end;
                Reply (main_menu_message l)])
           []).
Proof.
  intros Hload Hst Htok Hnet l found.
  rewrite handle_text_start, Hst. fold l.
  unfold try_except, handle_text_try. rewrite Htok. simpl lift_opt.
  unfold mbind, M_bind, mret, M_ret.
  rewrite (system_rows rs c token Hload). fold found.
  destruct found as [|r found']; simpl;
    unfold send_system_info, deliver, set_user_step; cbn [user_states outbox network];
    rewrite Hnet; cbn [user_states outbox network];
    unfold with_step, main_menu_message, system_info_message; by rewrite <-app_assoc.
Qed.



Lemma map_article_stored (rows : list row) :
  map (λ r, article_of (r_sys_art r)) (stored <$> rows)
  = map (λ r, article_of (r_sys_art r)) rows.
Proof.
  induction rows as [|r rows IH]; [done|]. simpl.
  by rewrite stored_sys_article, <-IH.
Qed.

(** X19.  In the step "await_cart_article", with deliveries succeeding,
    when some record of the sheet is filed under the typed token: the
    systems are the distinct non-empty system articles of those records in
    sheet order; with exactly one the user gets the info of that system and
    the main menu, and the step becomes "main_menu"; otherwise the user
    gets one list with a button "sysfromcart_<system>_<token>" for each of
    them and the button back to the menu, and the step becomes
    "await_choose_system_for_cart". *)
Theorem cartridge_article_answer
    (rs : list row) (c : catalog) (user_id : Z) (text token : string) (w : world) :
  load_data_from_sheets rs = Some c →
  s_step (session_of w user_id) = Some await_cart_article →
  head (py_split_ws (py_strip text)) = Some token →
  network w = [] →
  filter (λ r, cart_key r = Some token) rs ≠ [] →
  let l := user_lang w user_id in
  let systems :=
    dedup_first (filter (λ a, a ≠ "")
                   (map (λ r, article_of (r_sys_art r))
                      (filter (λ r, cart_key r = Some token) rs))) in
  handle_text c user_id (Some text) w
  = match systems with
    | [a] =>
        (Ok (),
         World (with_step user_id main_menu (user_states w))
               (outbox w
                ++ [Send (system_info_message l a (rows_of c a (systems_by_article c)));
                    Reply (main_menu_message l)])
               [])
    | _ =>
        (Ok (),
         World (with_step user_id await_choose_system_for_cart (user_states w))
               (outbox w
                ++ [Reply (text_of l "choose_system_for_cart"
                             (Some (map (sysfromcart_button c token) systems
                                    ++ [back_row l])))])
               [])
    end.
Proof.
  intros Hload Hst Htok Hnet Hfound l systems.
  rewrite handle_text_start, Hst. fold l.
  unfold try_except, handle_text_try. rewrite Htok. simpl lift_opt.
  unfold mbind at 1, M_bind at 1, mret, M_ret.
  rewrite (cartridge_rows rs c token Hload).
  rewrite sys_articles_eq, map_article_stored. fold systems.
  destruct (filter (λ r, cart_key r = Some token) rs) as [|r found'] eqn:Hf; [done|].
  rewrite fmap_cons.
  destruct systems as [|a [|b rest]];
    unfold mbind, M_bind, send_system_info, deliver, set_user_step;
    cbn [user_states outbox network]; rewrite Hnet; cbn [user_states outbox network];
    try done.
  unfold with_step, main_menu_message, system_info_message. by rewrite <-app_assoc.
Qed.

Lemma text_try_transitions (c : catalog) (user_id : Z) (l : lang) (text : string)
    (st : option step) (w w1 : world) (res : result unit) :
  s_step (session_of w user_id) = st →
  handle_text_try c user_id l text st w = (res, w1) →
  s_step (session_of w1 user_id) ∈ text_next st.
Proof.
  intros Hst Htry. unfold handle_text_try in Htry.
  destruct st as [[]|]; run_in Htry.
  all: repeat (case_match; run_in Htry); simplify_eq.
  all: unfold session_of in *; cbn [user_states outbox network];
    rewrite ?lookup_insert_eq; cbn [s_step text_next]; rewrite ?Hst;
    rewrite !elem_of_cons; tauto.
Qed.

(** X20.  Whatever the text, the catalog and the outcome of the
    deliveries, a text message moves the step only along the arrows of the
    dialogue: from no step to "choose_language"; from the three menu steps
    to "main_menu"; from an awaiting step to "main_menu" or to its step of
    choice, or nowhere when a fault comes first; and a text typed while a
    list of systems is shown leaves the step where it is.  The step is
    never unset. *)
Theorem text_transitions (c : catalog) (user_id : Z) (message_text : option string)
    (w : world) :
  s_step (session_of (snd (handle_text c user_id message_text w)) user_id)
  ∈ text_next (s_step (session_of w user_id)).
Proof.
  unfold handle_text, mbind, M_bind, get_user_lang, get_user_step, try_except.
  fold (session_of w user_id).
  destruct (handle_text_try _ _ _ _ _ w) as [[[]|] w1] eqn:Htry;
    pose proof (text_try_transitions _ _ _ _ _ _ _ _ eq_refl Htry) as Hnext.
  - done.
  - unfold session_of at 1. rewrite deliver_user_states. apply Hnext.
Qed.

(** A string with a prefix is the prefix followed by the rest. *)
Lemma prefix_split (p s : string) :
  String.prefix p s = true → ∃ rest, s = p +:+ rest.
Proof.
  revert s. induction p as [|a p IH]; intros s Hp; [by exists s|].
  destruct s as [|b s]; [done|].
  change (String.prefix (String a p) (String b s))
    with (if ascii_dec a b then String.prefix p s else false) in Hp.
  destruct (ascii_dec a b) as [->|]; [|done].
  destruct (IH s Hp) as [rest ->]. by exists rest.
Qed.

Lemma lang_token_code (data : string) :
  String.prefix "lang_" data = true →
  ∃ code, py_splitn "_" 1 data !! 1%nat = Some code.
Proof.
  intros [code ->]%prefix_split. exists code.
  unfold py_splitn. change ("lang_" +:+ code) with ("lang" +:+ String "_" code).
  by rewrite split_on_piece, split_on_zero.
Qed.

(** X21.  A menu token sets its step before the message is edited: once
    the query is answered, the step of the session after the handler is
    the step the token asks for, whether or not the edit is delivered. *)
Theorem menu_token_sets_step (c : catalog) (user_id : Z) (data : string) (w : world)
    (st : step) :
  hd true (network w) = true →
  callback_target data = Some st →
  s_step (session_of (snd (handle_callback c user_id (Some data) w)) user_id) = Some st.
Proof.
  intros Hans Htarget.
  change (handle_callback c user_id (Some data) w)
    with (handle_event c user_id (Selection (Some data)) w).
  rewrite (handle_event_try_block c user_id (Selection (Some data)) w Hans).
  simpl. generalize (answered w). intros w0.
  destruct (handle_callback_try c user_id (user_lang w user_id) (Some data) w0)
    as [res w1] eqn:Htry.
  assert (Hstep : s_step (session_of w1 user_id) = Some st).
  { unfold handle_callback_try, callback_target in *. run_in Htry.
    repeat (case_match; run_in Htry); simplify_eq;
      unfold session_of; cbn [user_states outbox network];
      try (by rewrite ?lookup_insert_eq).
    exfalso. destruct (lang_token_code data ltac:(assumption)) as [code Hcode].
    congruence. }
  destruct res as [[]|]; [done|].
  unfold session_of at 1. by rewrite deliver_user_states.
Qed.
End Dialogue.

Lemma pro_article_answer_witness :
  load_data_from_sheets sheet = Some (loaded sheet)
  ∧ s_step (session_of (at_step await_pro_article) user) = Some await_pro_article
  ∧ head (py_split_ws (py_strip " 99999 x")) = Some "99999"
  ∧ network (at_step await_pro_article) = []
  ∧ outbox (snd (handle_text (loaded sheet) user (Some " 99999 x")
                   (at_step await_pro_article)))
    = [Reply (text_of LANG_EN "no_systems_found" None); Reply (main_menu_message LANG_EN)].
Proof.
  split; [vm_compute; reflexivity|]. split; [reflexivity|].
  split; [vm_compute; reflexivity|]. split; [reflexivity|].
  rewrite (pro_article_answer sheet (loaded sheet) user " 99999 x" "99999"
             (at_step await_pro_article));
    vm_compute; reflexivity.
Defined.


Lemma cartridge_article_answer_witness :
  load_data_from_sheets sheet = Some (loaded sheet)
  ∧ s_step (session_of (at_step await_cart_article) user) = Some await_cart_article
  ∧ head (py_split_ws (py_strip "27008")) = Some "27008"
  ∧ network (at_step await_cart_article) = []
  ∧ filter (λ r, cart_key r = Some "27008") sheet ≠ []
  ∧ s_step (session_of (snd (handle_text (loaded sheet) user (Some "27008")
                               (at_step await_cart_article))) user)
    = Some await_choose_system_for_cart.
Proof.
  assert (Hfound : filter (λ r, cart_key r = Some "27008") sheet ≠ [])
    by (vm_compute; intros Heq; discriminate Heq).
  split; [vm_compute; reflexivity|]. split; [reflexivity|].
  split; [vm_compute; reflexivity|]. split; [reflexivity|]. split; [exact Hfound|].
  rewrite (cartridge_article_answer sheet (loaded sheet) user "27008" "27008"
             (at_step await_cart_article));
    [vm_compute; reflexivity | vm_compute; reflexivity | reflexivity
    | vm_compute; reflexivity | reflexivity | exact Hfound].
Defined.

Lemma menu_token_sets_step_witness :
  hd true (network (at_step_net main_menu [true; false])) = true
  ∧ callback_target "reg_cart_name" = Some await_cart_name
  ∧ s_step (session_of (snd (handle_callback (loaded sheet) user (Some "reg_cart_name")
                               (at_step_net main_menu [true; false]))) user)
    = Some await_cart_name.
Proof.
  split; [reflexivity|]. split; [reflexivity|].
  exact (menu_token_sets_step (loaded sheet) user "reg_cart_name"
           (at_step_net main_menu [true; false]) await_cart_name eq_refl eq_refl).
Defined.

(** ** Article codes *)

Lemma take_until_no_sep (sep : ascii) (s : string) :
  py_in (String sep "") s = false → take_until sep s = s.
Proof.
  induction s as [|ch s IH]; [done|].
  rewrite py_in_single. intros [Hch Hs]%orb_false_elim.
  cbn [take_until]. rewrite Ascii.eqb_sym, Hch. by rewrite IH.
Qed.

(** X22.  The normalization of an article, [str(x).split(".")[0]], keeps a
    code without a decimal point as it is, never leaves a decimal point in
    the result, and changes nothing when applied again; so the articles
    that the load writes back into the rows are read back unchanged by the
    handlers. *)
Theorem article_normalization (s : string) :
  (py_in "." s = false → before_dot s = s)
  ∧ py_in "." (before_dot s) = false
  ∧ before_dot (before_dot s) = before_dot s
  ∧ article_of (Some (CStr (before_dot s))) = before_dot s.
Proof.
  split_and!.
  - intros Hdot. rewrite before_dot_take_until. by apply take_until_no_sep.
  - apply before_dot_no_dot.
  - apply before_dot_idempotent.
  - unfold article_of. simpl. apply before_dot_idempotent.
Qed.
